(** * seplosd: the SEPLOS BMS 2.0 frame codec and [bms_command]

    A shallow embedding of [src/seplos.c].  Bytes are integers in
    [0, 256); the C integer types are written out with their wrap-around
    ([u8], [u16], [u32]).  The two [Seplos_2_0] buffers of the source
    ([encoded] and [result]) are flat byte arrays of [sizeof (Seplos_2_0)]
    bytes, because the source itself treats them as such ([write], [read]
    and [overall_checksum] run across field boundaries).

    Two properties of the C implementation are left as parameters
    ([abi]): whether plain [char] is signed, and the byte order in which a
    [uint16_t] is stored.  General theorems hold for every choice. *)

From Stdlib Require Import Ascii String ZArith List Bool Lia.
Import ListNotations.
Local Open Scope Z_scope.

(** ** C integer types *)

Definition u8 (x : Z) : Z := x mod 256.
Definition u16 (x : Z) : Z := x mod 65536.
Definition u32 (x : Z) : Z := x mod 4294967296.

Definition byte := Z.

(** A character constant, as the byte that holds it. *)
Definition ch (a : ascii) : byte := Z.of_nat (nat_of_ascii a).

(** The implementation-defined parts of the C data model. *)
Record abi : Type := mk_abi {
  char_signed : bool;   (* is plain [char] a signed type? *)
  big_endian : bool     (* byte order of a stored [uint16_t] *)
}.

Definition x86_64 : abi := mk_abi true false.
Definition armhf : abi := mk_abi false false.

(** ** Arrays *)

(** [a[i]] for a byte array; the source never indexes out of its buffers
    on the inputs considered, and [0] stands for whatever lies there. *)
Definition at_ (a : list byte) (i : Z) : byte := nth (Z.to_nat i) a 0.

(** The [n] bytes of [a] that start at offset [off]. *)
Definition slice (a : list byte) (off n : Z) : list byte :=
  firstn (Z.to_nat n) (skipn (Z.to_nat off) a).

(** Store [data] into [a] from offset [off] on ([memcpy], a field
    assignment, or the bytes delivered by [read]). *)
Definition blit (a : list byte) (off : Z) (data : list byte) : list byte :=
  firstn (Z.to_nat off) a ++ data ++
  skipn (Z.to_nat off + length data) a.

(** ** Protocol constants *)

Module Cmd.
Definition TELEMETERY_GET : Z := 0x42.
Definition TELECOMMAND_GET : Z := 0x44.
Definition TELECONTROL_CMD : Z := 0x45.
Definition TELEREGULATION_GET : Z := 0x47.
Definition TELEREGULATION_SET : Z := 0x49.
Definition PROTOCOL_VER_GET : Z := 0x4F.
Definition VENDOR_GET : Z := 0x51.
Definition HISTORY_GET : Z := 0x4B.
Definition TIME_GET : Z := 0x4D.
Definition TIME_SET : Z := 0x4E.
Definition PRODUCTION_CAL : Z := 0xA0.
Definition PRODUCTION_SET : Z := 0xA1.
Definition REGULAR_RECORDING : Z := 0xA2.
End Cmd.

Module Resp.
Definition NORMAL : Z := 0x00.
Definition VERSION_ERROR : Z := 0x01.
Definition CHECKSUM_ERROR : Z := 0x02.
Definition LENGTH_CHECKSUM_ERROR : Z := 0x03.
Definition CID2_ERROR : Z := 0x04.
Definition COMMAND_FORMAT_ERROR : Z := 0x05.
Definition DATA_INVALID : Z := 0x06.
Definition NO_HISTORY : Z := 0x07.
Definition CID1_ERROR : Z := 0xe1.
Definition EXECUTION_FAILURE : Z := 0xe2.
Definition DEVICE_FAULT : Z := 0xe3.
Definition PERMISSION_ERROR : Z := 0xe4.
End Resp.

(** Layout of [struct _Seplos_2_0]: every member is a [char] array, so
    there is no padding. *)
Module Off.
Definition start : Z := 0.
Definition version : Z := 1.
Definition address : Z := 3.
Definition device : Z := 5.
Definition function : Z := 7.
Definition length : Z := 9.
Definition info : Z := 13.
Definition sizeof : Z := 13 + (4095 + 4 + 1).
End Off.

(** [Seplos_2_0_binary]. *)
Record Seplos_2_0_binary : Type := mk_binary {
  b_version : Z;    (* uint8_t *)
  b_address : Z;    (* uint8_t *)
  b_device : Z;     (* uint8_t *)
  b_function : Z;   (* uint8_t *)
  b_length : Z      (* uint16_t *)
}.

(** ** Hex codec *)

Definition hex : list byte :=
  map ch (list_ascii_of_string "0123456789ABCDEF").

Definition hex1 (value : Z) : list byte :=
  [at_ hex (Z.land value 0xf)].

Definition hex2 (value : Z) : list byte :=
  [at_ hex (Z.land (Z.shiftr value 4) 0xf); at_ hex (Z.land value 0xf)].

Definition hex4 (value : Z) : list byte :=
  [at_ hex (Z.land (Z.shiftr value 12) 0xf);
   at_ hex (Z.land (Z.shiftr value 8) 0xf);
   at_ hex (Z.land (Z.shiftr value 4) 0xf);
   at_ hex (Z.land value 0xf)].

(** [hex1b c invalid]: the returned [uint8_t] and the flag [*invalid]
    after the call. *)
Definition hex1b (c : byte) (invalid : bool) : Z * bool :=
  if (ch "0" <=? c) && (c <=? ch "9") then (u8 (c - ch "0"), invalid)
  else if (ch "a" <=? c) && (c <=? ch "f") then (u8 (c - ch "a" + 0x10), invalid)
  else if (ch "A" <=? c) && (c <=? ch "F") then (u8 (c - ch "A" + 0x10), invalid)
  else (0, true).

(** C's [a || b] on [int] operands that may set [*invalid]: [b] is
    evaluated only when [a] is zero, and the value is [0] or [1]. *)
Definition logical_or (a : Z * bool) (b : bool -> Z * bool) : Z * bool :=
  if fst a =? 0
  then let r := b (snd a) in ((if fst r =? 0 then 0 else 1), snd r)
  else (1, snd a).

(** The operand [hex1b(ascii[k], invalid) << s]. *)
Definition shifted_nibble (ascii : list byte) (k s : Z) (invalid : bool)
  : Z * bool :=
  let r := hex1b (at_ ascii k) invalid in (Z.shiftl (fst r) s, snd r).

Definition hex2b (ascii : list byte) (invalid : bool) : Z * bool :=
  let r := logical_or (shifted_nibble ascii 0 4 invalid)
                      (shifted_nibble ascii 1 0) in
  (u8 (fst r), snd r).

Definition hex4b (ascii : list byte) (invalid : bool) : Z * bool :=
  let r :=
    logical_or
      (logical_or
         (logical_or (shifted_nibble ascii 0 12 invalid)
                     (shifted_nibble ascii 1 8))
         (shifted_nibble ascii 2 4))
      (shifted_nibble ascii 3 0) in
  (u16 (fst r), snd r).

(** [hextoi]: the second nibble decoder of the source (it is not called
    by [bms_command]); [-1] for a character that is no hex digit. *)
Definition hextoi (c : byte) : Z :=
  if (ch "0" <=? c) && (c <=? ch "9") then c - ch "0"
  else if (ch "a" <=? c) && (c <=? ch "f") then c - ch "a" + 10
  else if (ch "A" <=? c) && (c <=? ch "F") then c - ch "A" + 10
  else -1.

(** ** Checksums *)

Definition length_checksum (length : Z) : Z :=
  let sum := u32 (Z.land (Z.shiftr length 8) 0xf
                  + Z.land (Z.shiftr length 4) 0x0f
                  + Z.land length 0x0f) in
  Z.land (u32 (Z.shiftl (u32 (u32 (Z.lnot (Z.land sum 0xff)) + 1)) 12))
         0xf000.

(** The value of a [char] object holding byte [b], as an [int]. *)
Definition char_value (p : abi) (b : byte) : Z :=
  if char_signed p && (128 <=? b) then b - 256 else b.

(** [overall_checksum data length]: [data] is the memory from the pointer
    on, of which the loop adds up the first [length] bytes. *)
Definition overall_checksum (p : abi) (data : list byte) (length : Z) : Z :=
  let sum := fold_left (fun sum c => u32 (sum + char_value p c))
                       (firstn (Z.to_nat length) data) 0 in
  u32 (u32 (Z.lnot sum) + 1).

(** [*(uint16_t * )q = v] and [*(uint16_t * )q]. *)
Definition store_u16 (p : abi) (v : Z) : list byte :=
  let lo := Z.land (u16 v) 0xff in
  let hi := Z.shiftr (u16 v) 8 in
  if big_endian p then [hi; lo] else [lo; hi].

Definition load_u16 (p : abi) (a : list byte) (off : Z) : Z :=
  let b0 := at_ a off in
  let b1 := at_ a (off + 1) in
  if big_endian p then Z.lor (Z.shiftl b0 8) b1 else Z.lor (Z.shiftl b1 8) b0.

(** ** The serial line

    [bms_command] reaches the line through [tcflush], [write], [tcdrain]
    and [read] on [fd].  The line is a scripted peer that records every
    call: [writes] holds, per [write], how many bytes the driver accepts
    ([None]: the call fails), and [reads] holds, per [read], the bytes that
    arrive before the alarm ([None]: the call fails or is interrupted with
    nothing read).  [signal] and [alarm] act on the process, not on [fd],
    and are not recorded. *)

Inductive call : Type :=
| Tcflush
| WriteOf (buf : list byte)
| Tcdrain
| ReadOf (count : Z).

(** What the function prints on [stderr]. *)
Inductive diag : Type :=
| AssertionFailed      (* the message of the failed [assert], before [abort] *)
| PerrorWrite          (* perror("write to SEPLOS BMS") *)
| PerrorRead           (* perror("read") *)
| NonHex               (* "Non-hexidecimal character where only ..." *)
| LengthCode           (* "Length code incorrect." *)
| PerrorInfoRead       (* perror("info read") *)
| ChecksumMismatch     (* "Checksum mismatch." *)
| ReturnCode (x : Z).  (* "Return code %x." *)

Record world : Type := mk_world {
  calls : list call;
  writes : list (option Z);
  reads : list (option (list byte));
  stderr : list diag
}.

Definition record_call (w : world) (c : call) : world :=
  mk_world (calls w ++ [c]) (writes w) (reads w) (stderr w).

Definition eprint (w : world) (d : diag) : world :=
  mk_world (calls w) (writes w) (reads w) (stderr w ++ [d]).

Definition tcflush (w : world) : world := record_call w Tcflush.

Definition tcdrain (w : world) : world := record_call w Tcdrain.

(** [write(fd, buf, count)]: the value returned and the line afterwards. *)
Definition write (w : world) (buf : list byte) (count : Z) : Z * world :=
  let w' := record_call w (WriteOf (firstn (Z.to_nat count) buf)) in
  match writes w with
  | Some k :: rest =>
      (Z.min (Z.max 0 k) count, mk_world (calls w') rest (reads w') (stderr w'))
  | None :: rest => (-1, mk_world (calls w') rest (reads w') (stderr w'))
  | [] => (-1, w')
  end.

(** [read(fd, q, count)]: the value returned, the bytes stored at [q], and
    the line afterwards. *)
Definition read (w : world) (count : Z) : Z * list byte * world :=
  let w' := record_call w (ReadOf count) in
  match reads w with
  | Some d :: rest =>
      let got := firstn (Z.to_nat count) d in
      (Z.of_nat (length got), got,
       mk_world (calls w') (writes w') rest (stderr w'))
  | None :: rest => (-1, [], mk_world (calls w') (writes w') rest (stderr w'))
  | [] => (-1, [], w')
  end.

(** ** [bms_command] *)

(** How a call of [bms_command] ends. *)
Inductive outcome : Type :=
| Aborted                 (* [assert] failed: message, then [abort] *)
| Exited (status : Z)     (* [exit(status)] *)
| Returned (value : Z)    (* [return value] *)
| Hung.                   (* still in the [for] loop when the fuel ran out *)

Record run : Type := mk_run {
  out : outcome;
  after : world;
  result_buf : list byte      (* the caller's [*result] afterwards *)
}.

(** Lines 178-182: the binary request [s]. *)
Definition request_binary (address command info_length : Z)
  : Seplos_2_0_binary :=
  mk_binary (u8 0x20) (u8 address) (u8 0x46) (u8 command)
    (u16 (Z.lor (length_checksum (u32 (info_length * 2)))
                (Z.land (u32 (info_length * 2)) 0x0fff))).

(** Lines 174, 184-190: [encoded], zero-initialised, after the header
    fields and the start character are stored. *)
Definition encode_header (s : Seplos_2_0_binary) : list byte :=
  let encoded := repeat 0 (Z.to_nat Off.sizeof) in
  let encoded := blit encoded Off.version (hex2 (b_version s)) in
  let encoded := blit encoded Off.address (hex2 (b_address s)) in
  let encoded := blit encoded Off.device (hex2 (b_device s)) in
  let encoded := blit encoded Off.function (hex2 (b_function s)) in
  let encoded := blit encoded Off.length (hex4 (b_length s)) in
  blit encoded Off.start [ch "~"].

(** Lines 193-200: the info bytes, the checksum and the terminator. *)
Definition encode_body (p : abi) (encoded : list byte) (info : list byte)
  : list byte :=
  let info_length := Z.of_nat (length info) in
  let i := Off.info in
  let encoded := blit encoded i info in
  let i := i + info_length in
  let encoded :=
    blit encoded i
      (store_u16 p (overall_checksum p (skipn (Z.to_nat Off.version) encoded)
                                     (u32 (info_length + 12)))) in
  let i := i + 4 in
  blit encoded i [ch "013"].

(** Lines 229-238: the header decoded into [r], and the flag [invalid].
    The argument is the buffer the source decodes, which is [encoded]. *)
Definition parse_header (encoded : list byte) : Seplos_2_0_binary * bool :=
  let invalid := false in
  let invalid := if negb (at_ encoded Off.start =? ch "~") then true
                 else invalid in
  let '(version, invalid) := hex2b (slice encoded Off.version 2) invalid in
  let '(address, invalid) := hex2b (slice encoded Off.address 2) invalid in
  let '(device, invalid) := hex2b (slice encoded Off.device 2) invalid in
  let '(function, invalid) := hex2b (slice encoded Off.function 2) invalid in
  let '(length, invalid) := hex4b (slice encoded Off.length 4) invalid in
  (mk_binary version address device function length, invalid).

(** Line 245: the condition under which "Length code incorrect." is
    printed, on the binary value the source tests, which is [s]. *)
Definition length_code_wrong (s : Seplos_2_0_binary) : bool :=
  negb (length_checksum (Z.land (b_length s) 0x0fff)
        =? Z.land (b_length s) 0xf000).

(** Line 263: the test applied to a byte of the response. *)
Definition hex_range_test (c : byte) : bool :=
  ((ch "0" <=? c) && (ch "9" <? c))
  || ((ch "a" <=? c) && (c <=? ch "f"))
  || ((ch "A" <=? c) && (c <=? ch "F")).

(** Lines 261-267: the [for] loop.  Its state is [j] and the pointer [i]
    (as an offset into [encoded]); the increment is [i++].  One unit of
    fuel pays for one evaluation of the loop condition; [None] means the
    loop is still running when the fuel is spent. *)
Inductive loop_exit : Type :=
| Fallthrough          (* the condition became false *)
| EarlyReturn.         (* [return -1] from the body *)

Fixpoint hex_check_loop (fuel : nat) (result : list byte) (r_length : Z)
    (j i : Z) : option loop_exit :=
  match fuel with
  | O => None
  | S fuel' =>
      if j <? u32 (r_length + 4) then
        let c := at_ result (Off.info + j) in
        if negb (hex_range_test c) then Some EarlyReturn
        else hex_check_loop fuel' result r_length j (i + 1)
      else Some Fallthrough
  end.

(** Lines 269-270: the condition under which "Checksum mismatch." is
    printed. *)
Definition checksum_wrong (p : abi) (result : list byte) (info_length : Z)
  : bool :=
  let checksum := load_u16 p result (Off.info + info_length) in
  negb (checksum
        =? overall_checksum p (skipn (Z.to_nat Off.version) result)
                            (u32 (info_length + 12))).

Definition bms_command (p : abi) (fuel : nat) (w : world)
    (address command : Z) (info : list byte) (result : list byte) : run :=
  let info_length := Z.of_nat (length info) in
  let s := request_binary address command info_length in
  let encoded := encode_header s in
  if negb (info_length <? 4096)
  then mk_run Aborted (eprint w AssertionFailed) result else
  let encoded := encode_body p encoded info in
  let i := Off.info + info_length + 4 + 1 in
  let w := tcflush w in
  let '(ret, w) := write w encoded (u32 (info_length + 18)) in
  if ret <? 18 then mk_run (Exited 1) (eprint w PerrorWrite) result else
  let w := tcdrain w in
  let '(ret, data, w) := read w 18 in
  let result := blit result Off.start data in
  if negb (ret =? 18)
  then mk_run (Returned (-1)) (eprint w PerrorRead) result else
  let '(r, invalid) := parse_header encoded in
  if invalid then mk_run (Returned (-1)) (eprint w NonHex) result else
  if length_code_wrong s
  then mk_run (Returned (-1)) (eprint w LengthCode) result else
  let '(ret, data, w) := read w (b_length r) in
  let result := blit result (Off.info + 5) data in
  if negb (ret =? b_length r)
  then mk_run (Returned (-1)) (eprint w PerrorInfoRead) result else
  match hex_check_loop fuel result (b_length r) 0 i with
  | None => mk_run Hung w result
  | Some EarlyReturn => mk_run (Returned (-1)) (eprint w NonHex) result
  | Some Fallthrough =>
      if checksum_wrong p result info_length
      then mk_run (Returned (-1)) (eprint w ChecksumMismatch) result
      else
        let w := if negb (b_function r =? Resp.NORMAL)
                 then eprint w (ReturnCode (b_function r)) else w in
        mk_run (Returned (b_function r)) w result
  end.

(** [seplos_protocol_version]'s call: address, [PROTOCOL_VER_GET], the
    one-byte pack number [00], and a zeroed [response]. *)
Definition blank : list byte := repeat 0 (Z.to_nat Off.sizeof).

Definition protocol_version_call (p : abi) (fuel : nat) (w : world)
    (address : Z) : run :=
  bms_command p fuel w address Cmd.PROTOCOL_VER_GET [0] blank.

Definition bytes_of (s : string) : list byte := map ch (list_ascii_of_string s).

(** The calls made on the line during a run that started in [w]. *)
Definition issued (w : world) (r : run) : list call :=
  skipn (length (calls w)) (calls (after r)).

(** The bytes [bms_command] passes to [write]: the first
    [info_length + 18] bytes of [encoded]. *)
Definition wire_frame (p : abi) (address command : Z) (info : list byte)
  : list byte :=
  let info_length := Z.of_nat (length info) in
  firstn (Z.to_nat (u32 (info_length + 18)))
    (encode_body p
       (encode_header (request_binary address command info_length)) info).

(** ** Auxiliary definitions for the statements *)

(** The bytes from which the source builds the first 13 bytes of
    [encoded]. *)
Definition header_bytes (s : Seplos_2_0_binary) : list byte :=
  ch "~" :: hex2 (b_version s) ++ hex2 (b_address s) ++ hex2 (b_device s)
         ++ hex2 (b_function s) ++ hex4 (b_length s).

(** [0] for zero and [1] otherwise: the value of a chain of [||]. *)
Definition nonzero (v : Z) : Z := if v =? 0 then 0 else 1.

(** Equality test on a decoder's result, and a test of a predicate on
    every integer of [lo, lo + k). *)
Definition same (a b : Z * bool) : bool :=
  (fst a =? fst b) && Bool.eqb (snd a) (snd b).

Fixpoint upto (k : nat) (lo : Z) (P : Z -> bool) : bool :=
  match k with
  | O => true
  | S k' => P lo && upto k' (lo + 1) P
  end.

Definition below (n : Z) (P : Z -> bool) : bool := upto (Z.to_nat n) 0 P.

(** Treat the characters picked from the [hex] table as unknowns. *)
Ltac forget_hex :=
  repeat match goal with
         | |- context [at_ hex ?x] => generalize (at_ hex x); intro
         end.

(** ** Scenarios

    The request is the one [seplos_protocol_version] sends: address 0,
    [PROTOCOL_VER_GET], pack number [00].  The peer accepts the whole
    write and answers with one frame, of which the first [read] takes 18
    bytes and the second what it asks for of the rest. *)

Definition peer_replying (reply : list byte) : world :=
  mk_world [] [Some Off.sizeof] [Some reply; Some (skipn 18 reply)] [].

Definition CR : byte := ch "013".

(** Well-formed replies with one info byte ("00"): status [NORMAL], and
    status [CHECKSUM_ERROR]. *)
Definition reply_normal : list byte := bytes_of "~20004600E00200FD3D" ++ [CR].
Definition reply_status_02 : list byte :=
  bytes_of "~20004602E00200FD3B" ++ [CR].

(** Replies whose info region starts with a letter: ['G'], and ['A']. *)
Definition reply_with_G : list byte := bytes_of "~20004600E002G0FD26" ++ [CR].
Definition reply_with_A : list byte := bytes_of "~20004600E002A0FD2C" ++ [CR].

(** A reply whose length field [F002] carries the wrong length code (the
    code of [002] is [E]). *)
Definition reply_bad_length_code : list byte :=
  bytes_of "~20004600F00200FD3C" ++ [CR].

(** The reference value of a two-character hex field, with the source's
    own [hextoi]. *)
Definition hextoi2 (a : list byte) (off : Z) : Z :=
  hextoi (at_ a off) * 16 + hextoi (at_ a (off + 1)).

Definition hextoi4 (a : list byte) (off : Z) : Z :=
  hextoi2 a off * 256 + hextoi2 a (off + 2).

Ltac each_abi p := destruct p as [[|] [|]].

(** ** [seplos_protocol_version]

    The function returns a [float]: [-1.0] for a bad response, and
    otherwise [major + tenths * 0.1] for two integers read from the
    reply.  The value is kept as those integers. *)

Inductive version_value : Type :=
| BadResponse                       (* [return -1.0] *)
| VersionOf (major tenths : Z).     (* [return major + tenths * 0.1] *)

Inductive version_outcome : Type :=
| VAborted
| VExited (status : Z)
| VHung
| VReturned (v : version_value).

Record version_run : Type := mk_version_run {
  version_out : version_outcome;
  bad_response : option Z;    (* the [%x] of "Bad response %x from ..." *)
  inner : run                 (* the run of [bms_command] *)
}.

Definition seplos_protocol_version (p : abi) (fuel : nat) (w : world)
    (address : Z) : version_run :=
  let response := repeat 0 (Z.to_nat Off.sizeof) in
  let pack_info := [0] in
  let r := bms_command p fuel w address Cmd.PROTOCOL_VER_GET pack_info
             response in
  match out r with
  | Aborted => mk_version_run VAborted None r
  | Exited c => mk_version_run (VExited c) None r
  | Hung => mk_version_run VHung None r
  | Returned v =>
      let status := u32 v in
      if negb (status =? 0)
      then mk_version_run (VReturned BadResponse) (Some status) r
      else
        let '(version, invalid) :=
          hex2b (slice (result_buf r) Off.version 2) false in
        let version := u16 version in
        mk_version_run
          (VReturned (VersionOf (Z.land (Z.shiftr version 4) 0xf)
                                (Z.land version 0xf)))
          None r
  end.

(** ** Further auxiliary definitions for the statements *)

(** The sum of the [char] values of a byte sequence, without wrap-around. *)
Definition char_sum (p : abi) (data : list byte) : Z :=
  fold_right Z.add 0 (map (char_value p) data).

(** The sum of the four nibbles of a 16-bit value. *)
Definition nibble_sum (v : Z) : Z :=
  Z.land (Z.shiftr v 12) 0xf + Z.land (Z.shiftr v 8) 0xf
  + Z.land (Z.shiftr v 4) 0xf + Z.land v 0xf.

(** What [read] stores for a scripted reply. *)
Definition delivered (reply : option (list byte)) : list byte :=
  match reply with
  | Some d => d
  | None => []
  end.

(** What is left of [bms_command] once the steps that cannot fire are
    taken out: the header decode only yields the count of the second
    read, the length-code test is gone, the loop is one test of
    [result->info[0]], and nothing follows the loop. *)
Definition bms_command_effective (p : abi) (fuel : nat) (w : world)
    (address command : Z) (info : list byte) (result : list byte) : run :=
  let info_length := Z.of_nat (length info) in
  let s := request_binary address command info_length in
  if negb (info_length <? 4096)
  then mk_run Aborted (eprint w AssertionFailed) result else
  let '(ret, w) := write (tcflush w) (encode_body p (encode_header s) info)
                         (u32 (info_length + 18)) in
  if ret <? 18 then mk_run (Exited 1) (eprint w PerrorWrite) result else
  let '(ret, data, w) := read (tcdrain w) 18 in
  let result := blit result Off.start data in
  if negb (ret =? 18)
  then mk_run (Returned (-1)) (eprint w PerrorRead) result else
  let n := nonzero (b_length s) in
  let '(ret, data, w) := read w n in
  let result := blit result (Off.info + 5) data in
  if negb (ret =? n)
  then mk_run (Returned (-1)) (eprint w PerrorInfoRead) result else
  match fuel with
  | O => mk_run Hung w result
  | S _ =>
      if ch "9" <? at_ result Off.info then mk_run Hung w result
      else mk_run (Returned (-1)) (eprint w NonHex) result
  end.

(** * Properties *)

(** ** Checking a property on a whole range by evaluation *)

Lemma upto_spec (k : nat) (P : Z -> bool) :
  forall lo, upto k lo P = true ->
  forall v, lo <= v < lo + Z.of_nat k -> P v = true.
Proof.
  induction k as [|k IH]; intros lo H v Hv.
  - lia.
  - cbn [upto] in H. apply andb_prop in H. destruct H as [H0 H1].
    destruct (Z.eq_dec v lo) as [->|Hne]; [exact H0|].
    apply (IH (lo + 1) H1). lia.
Qed.

Lemma below_spec (n : Z) (P : Z -> bool) :
  below n P = true -> forall v, 0 <= v < n -> P v = true.
Proof.
  unfold below. intros H v Hv. apply (upto_spec _ _ _ H). lia.
Qed.

Lemma u8_range (x : Z) : 0 <= u8 x < 256.
Proof. unfold u8. apply Z.mod_pos_bound. lia. Qed.

Lemma u16_range (x : Z) : 0 <= u16 x < 65536.
Proof. unfold u16. apply Z.mod_pos_bound. lia. Qed.

Lemma u32_range (x : Z) : 0 <= u32 x < 4294967296.
Proof. unfold u32. apply Z.mod_pos_bound. lia. Qed.

(** ** The hex decoders on what the hex encoders emit *)

Lemma same_eq (a b : Z * bool) : same a b = true -> a = b.
Proof.
  destruct a as [x i], b as [y j]. unfold same. cbn.
  intros H. apply andb_prop in H. destruct H as [H1 H2].
  apply Z.eqb_eq in H1. apply Bool.eqb_prop in H2. congruence.
Qed.

(** Because of [||], [hex2b] and [hex4b] only tell whether the encoded
    number was zero. *)
Lemma hex2b_hex2 (v : Z) (invalid : bool) :
  0 <= v < 256 ->
  hex2b (hex2 v) invalid = ((if v =? 0 then 0 else 1), invalid).
Proof.
  intros Hv. apply same_eq. revert v Hv.
  destruct invalid;
    [ apply (below_spec 256
               (fun v => same (hex2b (hex2 v) true)
                              ((if v =? 0 then 0 else 1), true)))
    | apply (below_spec 256
               (fun v => same (hex2b (hex2 v) false)
                              ((if v =? 0 then 0 else 1), false))) ];
    vm_compute; reflexivity.
Qed.

Lemma hex4b_hex4 (v : Z) (invalid : bool) :
  0 <= v < 65536 ->
  hex4b (hex4 v) invalid = ((if v =? 0 then 0 else 1), invalid).
Proof.
  intros Hv. apply same_eq. revert v Hv.
  destruct invalid;
    [ apply (below_spec 65536
               (fun v => same (hex4b (hex4 v) true)
                              ((if v =? 0 then 0 else 1), true)))
    | apply (below_spec 65536
               (fun v => same (hex4b (hex4 v) false)
                              ((if v =? 0 then 0 else 1), false))) ];
    vm_compute; reflexivity.
Qed.

(** ** The validation loop *)

(** The loop never leaves through its condition: [j] stays [0], which is
    below [r.length + 4]. *)
Lemma hex_check_loop_no_fallthrough (result : list byte) (r_length : Z) :
  0 <= r_length < 65536 ->
  forall fuel i, hex_check_loop fuel result r_length 0 i <> Some Fallthrough.
Proof.
  intros Hr. induction fuel as [|fuel IH]; intros i; cbn [hex_check_loop].
  - discriminate.
  - assert (Hb : (0 <? u32 (r_length + 4)) = true).
    { apply Z.ltb_lt. unfold u32. rewrite Z.mod_small; lia. }
    rewrite Hb.
    destruct (hex_range_test (at_ result (Off.info + 0))); cbn [negb].
    + apply IH.
    + discriminate.
Qed.

(** What the loop does is decided by the one byte [result->info[0]]. *)
Lemma hex_check_loop_first_byte (result : list byte) (r_length : Z) :
  0 <= r_length < 65536 ->
  forall fuel i,
    hex_check_loop fuel result r_length 0 i =
    match fuel with
    | O => None
    | S _ => if hex_range_test (at_ result Off.info) then None
             else Some EarlyReturn
    end.
Proof.
  intros Hr.
  assert (Hb : (0 <? u32 (r_length + 4)) = true).
  { apply Z.ltb_lt. unfold u32. rewrite Z.mod_small; lia. }
  induction fuel as [|fuel IH]; intros i; cbn [hex_check_loop].
  - reflexivity.
  - rewrite Hb. change (Off.info + 0) with Off.info.
    destruct (hex_range_test (at_ result Off.info)) eqn:E; cbn [negb].
    + rewrite IH. destruct fuel; reflexivity.
    + reflexivity.
Qed.

Lemma parse_header_length_range (encoded : list byte) :
  0 <= b_length (fst (parse_header encoded)) < 65536.
Proof.
  unfold parse_header.
  destruct (hex2b (slice encoded Off.version 2) _) as [v0 i0].
  destruct (hex2b (slice encoded Off.address 2) _) as [v1 i1].
  destruct (hex2b (slice encoded Off.device 2) _) as [v2 i2].
  destruct (hex2b (slice encoded Off.function 2) _) as [v3 i3].
  unfold hex4b. cbn [fst b_length]. apply u16_range.
Qed.

(** ** Runs of [bms_command] *)

(** More fuel than one loop test never changes a run. *)
Lemma fuel_irrelevant (p : abi) (fuel : nat) (w : world)
    (address command : Z) (info result : list byte) :
  bms_command p (S fuel) w address command info result =
  bms_command p 1 w address command info result.
Proof.
  unfold bms_command.
  destruct (negb (Z.of_nat (length info) <? 4096)); [reflexivity|].
  destruct (write _ _ _) as [ret w1].
  destruct (ret <? 18); [reflexivity|].
  destruct (read _ 18) as [[ret1 data1] w2].
  destruct (negb (ret1 =? 18)); [reflexivity|].
  pose proof (parse_header_length_range
                (encode_body p
                   (encode_header
                      (request_binary address command
                         (Z.of_nat (length info)))) info)) as Hr.
  destruct (parse_header _) as [r invalid]. cbn [fst] in Hr.
  destruct invalid; [reflexivity|].
  destruct (length_code_wrong _); [reflexivity|].
  destruct (read _ (b_length r)) as [[ret2 data2] w3].
  destruct (negb (ret2 =? b_length r)); [reflexivity|].
  rewrite !(hex_check_loop_first_byte _ _ Hr). reflexivity.
Qed.

(** Without fuel a run that gets as far as the loop is cut there. *)
Lemma hang_is_final (p : abi) (w : world)
    (address command : Z) (info result : list byte) :
  out (bms_command p 1 w address command info result) = Hung ->
  forall fuel,
    out (bms_command p fuel w address command info result) = Hung.
Proof.
  intros H [|fuel]; [|rewrite fuel_irrelevant; exact H].
  revert H. unfold bms_command.
  destruct (negb (Z.of_nat (length info) <? 4096)); [intros H; exact H|].
  destruct (write _ _ _) as [ret w1].
  destruct (ret <? 18); [intros H; exact H|].
  destruct (read _ 18) as [[ret1 data1] w2].
  destruct (negb (ret1 =? 18)); [intros H; exact H|].
  destruct (parse_header _) as [r invalid].
  destruct invalid; [intros H; exact H|].
  destruct (length_code_wrong _); [intros H; exact H|].
  destruct (read _ (b_length r)) as [[ret2 data2] w3].
  destruct (negb (ret2 =? b_length r)); [intros H; exact H|].
  reflexivity.
Qed.

(** No run returns a status: whatever [bms_command] returns is [-1]. *)
Lemma bms_command_returns_minus_one (p : abi) (fuel : nat) (w : world)
    (address command : Z) (info result : list byte) (v : Z) :
  out (bms_command p fuel w address command info result) = Returned v ->
  v = -1.
Proof.
  unfold bms_command.
  destruct (negb (Z.of_nat (length info) <? 4096)); [discriminate|].
  destruct (write _ _ _) as [ret w1].
  destruct (ret <? 18); [discriminate|].
  destruct (read _ 18) as [[ret1 data1] w2].
  destruct (negb (ret1 =? 18)); [cbn; congruence|].
  pose proof (parse_header_length_range
                (encode_body p
                   (encode_header
                      (request_binary address command
                         (Z.of_nat (length info)))) info)) as Hr.
  destruct (parse_header _) as [r invalid]. cbn [fst] in Hr.
  destruct invalid; [cbn; congruence|].
  destruct (length_code_wrong _); [cbn; congruence|].
  destruct (read _ (b_length r)) as [[ret2 data2] w3].
  destruct (negb (ret2 =? b_length r)); [cbn; congruence|].
  pose proof (hex_check_loop_no_fallthrough
                (blit (blit result Off.start data1) (Off.info + 5) data2)
                (b_length r) Hr fuel
                (Off.info + Z.of_nat (length info) + 4 + 1)) as Hl.
  destruct (hex_check_loop _ _ _ _ _) as [[|]|].
  - congruence.
  - cbn; congruence.
  - discriminate.
Qed.

(** ** Layout of the encoded request *)

Lemma blit_app (pre mid post data : list byte) (off : Z) :
  Z.to_nat off = length pre -> length mid = length data ->
  blit (pre ++ mid ++ post) off data = pre ++ data ++ post.
Proof.
  intros Hoff Hmid. unfold blit. rewrite Hoff.
  rewrite firstn_app, firstn_all, Nat.sub_diag, firstn_O, app_nil_r.
  rewrite skipn_app.
  replace (length pre + length data - length pre)%nat
    with (length mid) by lia.
  rewrite (skipn_all2 pre) by lia. cbn [app].
  rewrite skipn_app, skipn_all, Nat.sub_diag, skipn_O. reflexivity.
Qed.

Lemma header_bytes_length (s : Seplos_2_0_binary) :
  length (header_bytes s) = 13%nat.
Proof. reflexivity. Qed.

Lemma encode_header_layout (s : Seplos_2_0_binary) :
  encode_header s = header_bytes s ++ repeat 0 4100.
Proof.
  unfold encode_header, header_bytes, hex2, hex4.
  forget_hex. vm_compute. reflexivity.
Qed.

Lemma header_fields (s : Seplos_2_0_binary) (rest : list byte) :
  let e := header_bytes s ++ rest in
  at_ e Off.start = ch "~"
  /\ slice e Off.version 2 = hex2 (b_version s)
  /\ slice e Off.address 2 = hex2 (b_address s)
  /\ slice e Off.device 2 = hex2 (b_device s)
  /\ slice e Off.function 2 = hex2 (b_function s)
  /\ slice e Off.length 4 = hex4 (b_length s).
Proof.
  unfold header_bytes, hex2, hex4. forget_hex.
  repeat split; reflexivity.
Qed.

(** The memory of [encoded] when it is handed to [write]: the header, the
    info bytes, the four bytes kept for the checksum (the two that the
    [uint16_t] store fills and two that stay zero), the terminator, and
    the untouched rest of the array. *)
Lemma encode_body_layout (p : abi) (s : Seplos_2_0_binary) (info : list byte) :
  (length info < 4096)%nat ->
  exists ck : list byte,
    length ck = 2%nat /\
    encode_body p (encode_header s) info =
    header_bytes s ++ info ++ (ck ++ [0; 0]) ++ [ch "013"]
      ++ repeat 0 (4095 - length info).
Proof.
  intros Hlen. unfold encode_body. rewrite encode_header_layout.
  set (hdr := header_bytes s).
  assert (Hh : length hdr = 13%nat) by reflexivity.
  replace 4100%nat with (length info + (2 + (2 + (1 + (4095 - length info)))))%nat
    by lia.
  rewrite !repeat_app.
  rewrite (blit_app hdr (repeat 0 (length info)) _ info Off.info)
    by (rewrite ?repeat_length; auto).
  set (ck := store_u16 p _).
  assert (Hck : length ck = 2%nat).
  { unfold ck, store_u16. destruct (big_endian p); reflexivity. }
  exists ck. split; [exact Hck|].
  rewrite (app_assoc hdr info).
  rewrite (blit_app (hdr ++ info) (repeat 0 2) _ ck)
    by (rewrite ?length_app, ?repeat_length, ?Hh; unfold Off.info; lia).
  rewrite (app_assoc (hdr ++ info) ck).
  rewrite (app_assoc ((hdr ++ info) ++ ck) (repeat 0 2)).
  rewrite (blit_app (((hdr ++ info) ++ ck) ++ repeat 0 2) (repeat 0 1) _
                    [ch "013"])
    by (rewrite ?length_app, ?repeat_length, ?Hh, ?Hck; cbn [length];
        unfold Off.info; lia).
  rewrite <- !app_assoc. reflexivity.
Qed.

Lemma wire_frame_layout (p : abi) (address command : Z) (info : list byte) :
  (length info < 4096)%nat ->
  exists ck : list byte,
    length ck = 4%nat /\
    wire_frame p address command info =
    header_bytes (request_binary address command (Z.of_nat (length info)))
      ++ info ++ ck ++ [ch "013"].
Proof.
  intros Hlen. unfold wire_frame.
  destruct (encode_body_layout p
              (request_binary address command (Z.of_nat (length info)))
              info Hlen) as (ck & Hck & ->).
  exists (ck ++ [0; 0]). split.
  - rewrite length_app, Hck. reflexivity.
  - set (hdr := header_bytes _).
    assert (Hh : length hdr = 13%nat) by reflexivity.
    rewrite !app_assoc.
    set (frame := ((((hdr ++ info) ++ ck) ++ [0; 0]) ++ [ch "013"])).
    replace (Z.to_nat (u32 (Z.of_nat (length info) + 18)))
      with (length frame + 0)%nat.
    + rewrite firstn_app_2, firstn_O, app_nil_r. subst frame.
      rewrite <- !app_assoc. reflexivity.
    + unfold frame, u32. rewrite !length_app, Hh, Hck. cbn [length].
      rewrite Z.mod_small; lia.
Qed.

(** ** The length code of the request *)

Lemma nibble_of_low12 (x k : Z) :
  0 <= k <= 8 ->
  Z.land (Z.shiftr (Z.land x 0xfff) k) 0xf = Z.land (Z.shiftr x k) 0xf.
Proof.
  intros Hk. apply Z.bits_inj'. intros i Hi.
  rewrite !Z.land_spec, !Z.shiftr_spec, Z.land_spec by lia.
  change 0xf with (Z.ones 4). change 0xfff with (Z.ones 12).
  rewrite !Z.testbit_ones_nonneg by lia.
  destruct (i <? 4) eqn:E.
  - apply Z.ltb_lt in E.
    assert (H : (i + k <? 12) = true) by (apply Z.ltb_lt; lia).
    rewrite H, !andb_true_r. reflexivity.
  - rewrite !andb_false_r. reflexivity.
Qed.

Lemma length_checksum_low12 (x : Z) :
  length_checksum (Z.land x 0xfff) = length_checksum x.
Proof.
  unfold length_checksum.
  rewrite (nibble_of_low12 x 8), (nibble_of_low12 x 4) by lia.
  pose proof (nibble_of_low12 x 0 ltac:(lia)) as H0.
  rewrite !Z.shiftr_0_r in H0. rewrite H0. reflexivity.
Qed.

(** The length field the encoder builds always carries its own length
    checksum, so the test of line 245, which is made on [s], never
    fires. *)
Lemma request_length_code (address command info_length : Z) :
  length_code_wrong (request_binary address command info_length) = false.
Proof.
  unfold length_code_wrong, request_binary. cbn [b_length].
  rewrite <- (length_checksum_low12 (u32 (info_length * 2))).
  assert (Hm : 0 <= Z.land (u32 (info_length * 2)) 0xfff < 4096).
  { change 0xfff with (Z.ones 12). rewrite Z.land_ones by lia.
    apply Z.mod_pos_bound. lia. }
  revert Hm. generalize (Z.land (u32 (info_length * 2)) 0xfff). intros m Hm.
  apply (below_spec 4096
           (fun m => negb (negb
              (length_checksum
                 (Z.land (u16 (Z.lor (length_checksum m) m)) 0xfff)
               =? Z.land (u16 (Z.lor (length_checksum m) m)) 0xf000))))
    in Hm; [|vm_compute; reflexivity].
  cbv beta in Hm. apply negb_true_iff in Hm. exact Hm.
Qed.

(** ** What the header decode of [bms_command] sees *)

(** The header that is decoded is the request's own, and each field comes
    out as [0] or [1]. *)
Lemma parse_encoded_request (p : abi) (address command : Z)
    (info : list byte) :
  (length info < 4096)%nat ->
  let s := request_binary address command (Z.of_nat (length info)) in
  parse_header (encode_body p (encode_header s) info) =
  (mk_binary 1 (nonzero (u8 address)) 1 (nonzero (u8 command))
             (nonzero (b_length s)), false).
Proof.
  intros Hlen s.
  destruct (encode_body_layout p s info Hlen) as (ck & _ & ->).
  destruct (header_fields s (info ++ (ck ++ [0; 0]) ++ [ch "013"]
                               ++ repeat 0 (4095 - length info)))
    as (H0 & H1 & H2 & H3 & H4 & H5).
  unfold parse_header. rewrite H0, H1, H2, H3, H4, H5.
  rewrite Z.eqb_refl. cbn [negb].
  unfold request_binary.
  cbn [b_version b_address b_device b_function b_length].
  rewrite !hex2b_hex2 by apply u8_range.
  rewrite hex4b_hex4 by apply u16_range.
  reflexivity.
Qed.

(** ** The calls a run makes *)

Lemma write_calls (w : world) (buf : list byte) (count : Z) :
  calls (snd (write w buf count)) =
  calls w ++ [WriteOf (firstn (Z.to_nat count) buf)].
Proof. unfold write. destruct (writes w) as [|[k|] rest]; reflexivity. Qed.

Lemma read_calls (w : world) (count : Z) :
  calls (snd (read w count)) = calls w ++ [ReadOf count].
Proof. unfold read. destruct (reads w) as [|[d|] rest]; reflexivity. Qed.

Lemma issued_app (w : world) (r : run) (cs : list call) :
  calls (after r) = calls w ++ cs -> issued w r = cs.
Proof.
  intros H. unfold issued. rewrite H.
  rewrite skipn_app, skipn_all, Nat.sub_diag, skipn_O. reflexivity.
Qed.

(** The four shapes of the call sequence, by how far the run gets. *)
Lemma bms_command_calls (p : abi) (fuel : nat) (w : world)
    (address command : Z) (info result : list byte) :
  let r := bms_command p fuel w address command info result in
  let frame := wire_frame p address command info in
  (out r = Aborted /\ issued w r = [])
  \/ (out r = Exited 1 /\ issued w r = [Tcflush; WriteOf frame])
  \/ issued w r = [Tcflush; WriteOf frame; Tcdrain; ReadOf 18]
  \/ exists n,
       issued w r = [Tcflush; WriteOf frame; Tcdrain; ReadOf 18; ReadOf n].
Proof.
  intros r frame. subst r. unfold bms_command.
  destruct (negb (Z.of_nat (length info) <? 4096)).
  { left. split; [reflexivity|]. apply issued_app. cbn.
    rewrite app_nil_r. reflexivity. }
  right.
  pose proof (write_calls (tcflush w)
                (encode_body p
                   (encode_header
                      (request_binary address command
                         (Z.of_nat (length info)))) info)
                (u32 (Z.of_nat (length info) + 18))) as Hw.
  fold (wire_frame p address command info) in Hw. fold frame in Hw.
  destruct (write _ _ _) as [ret w1]. cbn [snd] in Hw.
  destruct (ret <? 18).
  { left. split; [reflexivity|]. apply issued_app. cbn. rewrite Hw. cbn.
    rewrite <- app_assoc. reflexivity. }
  right.
  pose proof (read_calls (tcdrain w1) 18) as Hr1.
  destruct (read _ 18) as [[ret1 data1] w2]. cbn [snd] in Hr1.
  assert (H4 : calls w2
               = calls w ++ [Tcflush; WriteOf frame; Tcdrain; ReadOf 18]).
  { rewrite Hr1. cbn. rewrite Hw. cbn. rewrite <- !app_assoc. reflexivity. }
  destruct (negb (ret1 =? 18)); [left; apply issued_app; exact H4|].
  destruct (parse_header _) as [r invalid].
  destruct invalid; [left; apply issued_app; exact H4|].
  destruct (length_code_wrong _); [left; apply issued_app; exact H4|].
  right. exists (b_length r).
  pose proof (read_calls w2 (b_length r)) as Hr2.
  destruct (read _ (b_length r)) as [[ret2 data2] w3]. cbn [snd] in Hr2.
  assert (H5 : calls w3
               = calls w ++ [Tcflush; WriteOf frame; Tcdrain; ReadOf 18;
                             ReadOf (b_length r)]).
  { rewrite Hr2, H4, <- app_assoc. reflexivity. }
  destruct (negb (ret2 =? b_length r)); [apply issued_app; exact H5|].
  destruct (hex_check_loop _ _ _ _ _) as [[|]|];
    try (apply issued_app; exact H5).
  destruct (checksum_wrong _ _ _); [apply issued_app; exact H5|].
  apply issued_app. destruct (negb _); exact H5.
Qed.

Lemma write_reads (w : world) (buf : list byte) (count : Z) :
  reads (snd (write w buf count)) = reads w.
Proof. unfold write. destruct (writes w) as [|[k|] rest]; reflexivity. Qed.

(** A read is only issued once the assertion has passed and [write] has
    returned 18 or more. *)
Lemma read_issued_inv (p : abi) (fuel : nat) (w : world)
    (address command : Z) (info result : list byte) :
  let r := bms_command p fuel w address command info result in
  let s := request_binary address command (Z.of_nat (length info)) in
  (exists n, In (ReadOf n) (issued w r)) ->
  (length info < 4096)%nat
  /\ (fst (write (tcflush w) (encode_body p (encode_header s) info)
                 (u32 (Z.of_nat (length info) + 18))) <? 18) = false.
Proof.
  intros r s [n Hn]. subst r. revert Hn. unfold bms_command. fold s.
  destruct (negb (Z.of_nat (length info) <? 4096)) eqn:Hb.
  { unfold issued. cbn [after]. rewrite skipn_all. intros []. }
  pose proof (write_calls (tcflush w)
                (encode_body p (encode_header s) info)
                (u32 (Z.of_nat (length info) + 18))) as Hw.
  destruct (write _ _ _) as [ret w1]. cbn [snd fst] in *.
  cbn [tcflush record_call calls] in Hw. rewrite <- app_assoc in Hw.
  destruct (ret <? 18).
  { unfold issued. cbn [after eprint calls].
    rewrite Hw, skipn_app, skipn_all, Nat.sub_diag. cbn.
    intros [H|[H|[]]]; discriminate. }
  intros _. split; [|reflexivity].
  apply negb_false_iff, Z.ltb_lt in Hb. lia.
Qed.

(** When the 18 bytes of the header arrive, the second read is issued, for
    as many bytes as the request's own length field decodes to with
    [hex4b]: none or one. *)
Lemma tail_read_follows (p : abi) (fuel : nat) (w : world)
    (address command : Z) (info result : list byte)
    (d : list byte) (rest : list (option (list byte))) :
  let r := bms_command p fuel w address command info result in
  let s := request_binary address command (Z.of_nat (length info)) in
  (exists n, In (ReadOf n) (issued w r)) ->
  reads w = Some d :: rest -> (18 <= length d)%nat ->
  issued w r = [Tcflush; WriteOf (wire_frame p address command info); Tcdrain;
                ReadOf 18; ReadOf (nonzero (b_length s))].
Proof.
  intros r s Hn Hreads Hd.
  destruct (read_issued_inv p fuel w address command info result Hn)
    as [Hlen Hret].
  fold s in Hret. clear Hn. subst r. unfold bms_command. fold s.
  assert (Hb : negb (Z.of_nat (length info) <? 4096) = false).
  { apply negb_false_iff, Z.ltb_lt. lia. }
  rewrite Hb. clear Hb.
  pose proof (parse_encoded_request p address command info Hlen) as Hp.
  cbv zeta in Hp. fold s in Hp.
  pose proof (write_calls (tcflush w)
                (encode_body p (encode_header s) info)
                (u32 (Z.of_nat (length info) + 18))) as Hw.
  pose proof (write_reads (tcflush w)
                (encode_body p (encode_header s) info)
                (u32 (Z.of_nat (length info) + 18))) as Hwr.
  fold s in Hw. fold (wire_frame p address command info) in Hw.
  destruct (write _ _ _) as [ret w1]. cbn [snd fst] in Hw, Hwr, Hret.
  cbn [tcflush record_call calls] in Hw. rewrite <- app_assoc in Hw.
  cbn [tcflush record_call reads] in Hwr.
  rewrite Hret.
  unfold read at 1. cbn [tcdrain record_call reads calls writes stderr].
  rewrite Hwr, Hreads.
  assert (H18 : Z.of_nat (length (firstn (Z.to_nat 18) d)) = 18).
  { rewrite length_firstn. lia. }
  rewrite H18. cbn [Z.eqb Pos.eqb negb].
  rewrite Hp. subst s. rewrite request_length_code. cbn [b_length].
  set (n := nonzero _).
  set (w2 := mk_world _ _ rest _).
  assert (H4 : calls w2
               = calls w ++ [Tcflush;
                             WriteOf (wire_frame p address command info);
                             Tcdrain; ReadOf 18]).
  { unfold w2. cbn [calls]. rewrite Hw, <- !app_assoc. reflexivity. }
  pose proof (read_calls w2 n) as Hr2.
  destruct (read w2 n) as [[ret2 data2] w3]. cbn [snd] in Hr2.
  rewrite H4, <- app_assoc in Hr2. cbn [app] in Hr2.
  destruct (negb (ret2 =? n)); [apply issued_app; exact Hr2|].
  destruct (hex_check_loop _ _ _ _ _) as [[|]|];
    try (apply issued_app; exact Hr2).
  destruct (checksum_wrong _ _ _); [apply issued_app; exact Hr2|].
  apply issued_app. cbn [after].
  destruct (negb (_ =? Resp.NORMAL)); exact Hr2.
Qed.

(** * The claims *)

(** Evaluate a run of [protocol_version_call] for every [abi] and every
    amount of fuel. *)
Ltac by_run p fuel :=
  destruct fuel as [|fuel];
  [|unfold protocol_version_call; rewrite fuel_irrelevant];
  each_abi p; vm_compute; repeat split; try reflexivity; try discriminate.

(** C1 ([bms_command], lines 229-248 and 275-279).  The claim is that the
    value returned is the status decoded from the function field of the
    received frame.  Here the peer answers the protocol-version request
    with a well-formed frame whose function field is [02]: the frame is in
    [*result], its function field reads [0x02], and the call returns [-1]
    after printing the non-hex message (or is still in the loop when it
    has no fuel); it never returns [2]. *)
Theorem status_not_taken_from_reply (p : abi) (fuel : nat) :
  let r := protocol_version_call p fuel (peer_replying reply_status_02) 0 in
  slice (result_buf r) 0 19 = firstn 19 reply_status_02
  /\ hextoi2 (result_buf r) Off.function = Resp.CHECKSUM_ERROR
  /\ out r <> Returned Resp.CHECKSUM_ERROR
  /\ out r = match fuel with O => Hung | S _ => Returned (-1) end
  /\ stderr (after r) = match fuel with O => [] | S _ => [NonHex] end.
Proof. by_run p fuel. Qed.

(** C2 ([bms_command], lines 184-200 and 234-238).  The claim is that
    decoding the encoded request gives the request back.  For the
    protocol-version request the binary header is
    [(0x20, 0, 0x46, 0x4F, 0xE002)], and the header decoded from its
    encoding is [(1, 0, 1, 1, 1)]. *)
Theorem decoded_request_differs (p : abi) :
  let s := request_binary 0 Cmd.PROTOCOL_VER_GET 1 in
  let encoded := encode_body p (encode_header s) [0] in
  s = mk_binary 0x20 0 0x46 0x4F 0xE002
  /\ slice encoded 0 13 = bytes_of "~2000464FE002"
  /\ parse_header encoded = (mk_binary 1 0 1 1 1, false).
Proof. each_abi p; vm_compute; repeat split; reflexivity. Qed.

(** C3 ([hex1b], [hex2b], [hex4b], lines 103-129).  The claim is that a hex
    letter decodes to 10..15 and that the two- and four-character decoders
    combine the nibbles bitwise.  ['A'] and ['a'] decode to 16 and ['F'] to
    21 (the sibling [hextoi] gives 10 and 15); ["41"], ["FF"] and ["E002"]
    decode to 1; and in ["1G"] the ['G'] is not looked at, so no invalid
    character is reported. *)
Theorem hex_decoders_off (invalid : bool) :
  hex1b (ch "A") invalid = (16, invalid)
  /\ hex1b (ch "a") invalid = (16, invalid)
  /\ hex1b (ch "F") invalid = (21, invalid)
  /\ hextoi (ch "A") = 10 /\ hextoi (ch "F") = 15
  /\ hex2b (bytes_of "41") invalid = (1, invalid)
  /\ hex2b (hex2 0xFF) invalid = (1, invalid)
  /\ hex4b (bytes_of "E002") invalid = (1, invalid)
  /\ hex2b (bytes_of "1G") false = (1, false)
  /\ hex2b (bytes_of "0G") false = (0, true).
Proof. destruct invalid; vm_compute; repeat split; reflexivity. Qed.

(** C4, as stated (18 + 2 * len(info) bytes on the wire, checksum as four
    hex characters), fails on the request of [seplos_protocol_version]:
    with one info byte the frame handed to [write] has 19 bytes, not 20,
    and its checksum field holds the two bytes of the [uint16_t] store and
    two zero bytes. *)
Lemma wire_frame_not_doubled :
  let frame := wire_frame x86_64 0 Cmd.PROTOCOL_VER_GET [0] in
  Z.of_nat (length frame) <> 18 + 2 * Z.of_nat (length [0])
  /\ frame = bytes_of "~2000464FE002" ++ [0] ++ [131; 253; 0; 0] ++ [CR]
  /\ issued (peer_replying reply_normal)
       (protocol_version_call x86_64 1 (peer_replying reply_normal) 0)
     = [Tcflush; WriteOf frame; Tcdrain; ReadOf 18; ReadOf 1].
Proof. vm_compute. repeat split; try reflexivity; discriminate. Qed.

(** C4, amended ([bms_command], lines 193-209).  For every request the
    encoder accepts (fewer than 4096 info bytes) the frame is the start
    character, the twelve hex characters of the header, the info bytes as
    given, a four-byte checksum field and the terminator: 18 + len(info)
    bytes, and exactly these bytes are handed to [write], right after the
    flush. *)
Theorem wire_frame_size (p : abi) (fuel : nat) (w : world)
    (address command : Z) (info result : list byte) :
  (length info < 4096)%nat ->
  let frame := wire_frame p address command info in
  let s := request_binary address command (Z.of_nat (length info)) in
  (exists ck : list byte,
      length ck = 4%nat /\
      frame = [ch "~"] ++ hex2 0x20 ++ hex2 (u8 address) ++ hex2 0x46
                ++ hex2 (u8 command) ++ hex4 (b_length s)
                ++ info ++ ck ++ [CR])
  /\ Z.of_nat (length frame) = 18 + Z.of_nat (length info)
  /\ firstn 2 (issued w (bms_command p fuel w address command info result))
     = [Tcflush; WriteOf frame].
Proof.
  intros Hlen frame s.
  destruct (wire_frame_layout p address command info Hlen) as (ck & Hck & Hf).
  fold frame in Hf. fold s in Hf.
  split; [|split].
  - exists ck. split; [exact Hck|]. rewrite Hf. reflexivity.
  - rewrite Hf, !length_app, header_bytes_length, Hck. cbn [length]. lia.
  - destruct (bms_command_calls p fuel w address command info result)
      as [[Ha _]|[[_ H]|[H|[n H]]]].
    + exfalso. revert Ha. unfold bms_command.
      assert (Hb : negb (Z.of_nat (length info) <? 4096) = false).
      { apply negb_false_iff, Z.ltb_lt. lia. }
      rewrite Hb.
      destruct (write _ _ _) as [ret w1].
      destruct (ret <? 18); [discriminate|].
      destruct (read _ 18) as [[ret1 data1] w2].
      destruct (negb (ret1 =? 18)); [discriminate|].
      destruct (parse_header _) as [r invalid].
      destruct invalid; [discriminate|].
      destruct (length_code_wrong _); [discriminate|].
      destruct (read _ (b_length r)) as [[ret2 data2] w3].
      destruct (negb (ret2 =? b_length r)); [discriminate|].
      destruct (hex_check_loop _ _ _ _ _) as [[|]|]; try discriminate.
      destruct (checksum_wrong _ _ _); discriminate.
    + rewrite H. reflexivity.
    + rewrite H. reflexivity.
    + rewrite H. reflexivity.
Qed.

Lemma wire_frame_size_witness :
  (length [0] < 4096)%nat
  /\ Z.of_nat (length (wire_frame armhf 7 Cmd.PROTOCOL_VER_GET [0]))
     = 18 + Z.of_nat (length [0]).
Proof.
  split; [cbn; lia|].
  apply (wire_frame_size armhf 1 (peer_replying reply_normal) 7
           Cmd.PROTOCOL_VER_GET [0] blank).
  cbn; lia.
Defined.

(** C5, as stated (2048 info bytes are refused with no transport
    operation), fails: with 2048 info bytes the call flushes, writes a
    2066-byte frame whose length field is [0000], drains and reads. *)
Lemma info_of_2048_bytes_is_sent :
  let w := peer_replying reply_normal in
  let r := bms_command x86_64 1 w 0 Cmd.PROTOCOL_VER_GET (repeat 0 2048)
             blank in
  out r = Returned (-1)
  /\ out r <> Aborted
  /\ issued w r
     = [Tcflush;
        WriteOf (wire_frame x86_64 0 Cmd.PROTOCOL_VER_GET (repeat 0 2048));
        Tcdrain; ReadOf 18; ReadOf 0]
  /\ length (wire_frame x86_64 0 Cmd.PROTOCOL_VER_GET (repeat 0 2048))
     = 2066%nat
  /\ b_length (request_binary 0 Cmd.PROTOCOL_VER_GET 2048) = 0.
Proof. vm_compute. repeat split; try reflexivity; discriminate. Qed.

(** C5, amended ([bms_command], line 191).  An info sequence of 4096 bytes
    or more stops the call at its assertion: nothing is flushed, written,
    drained or read, the line is left as it was, the message of the
    assertion is all that is printed, and [*result] is untouched. *)
Theorem oversize_info_aborts (p : abi) (fuel : nat) (w : world)
    (address command : Z) (info result : list byte) :
  (4096 <= length info)%nat ->
  bms_command p fuel w address command info result
  = mk_run Aborted (eprint w AssertionFailed) result
  /\ issued w (bms_command p fuel w address command info result) = [].
Proof.
  intros Hlen.
  assert (H : bms_command p fuel w address command info result
              = mk_run Aborted (eprint w AssertionFailed) result).
  { unfold bms_command.
    assert (Hb : negb (Z.of_nat (length info) <? 4096) = true).
    { apply negb_true_iff, Z.ltb_ge. lia. }
    rewrite Hb. reflexivity. }
  split; [exact H|].
  rewrite H. apply issued_app. cbn. rewrite app_nil_r. reflexivity.
Qed.

Lemma oversize_info_aborts_witness :
  (4096 <= length (repeat 0 4096))%nat
  /\ (bms_command x86_64 1 (peer_replying reply_normal) 0
        Cmd.PROTOCOL_VER_GET (repeat 0 4096) blank
      = mk_run Aborted (eprint (peer_replying reply_normal) AssertionFailed)
          blank
      /\ issued (peer_replying reply_normal)
           (bms_command x86_64 1 (peer_replying reply_normal) 0
              Cmd.PROTOCOL_VER_GET (repeat 0 4096) blank) = []).
Proof.
  split; [rewrite repeat_length; lia|].
  apply oversize_info_aborts. rewrite repeat_length; lia.
Defined.

(** C6 ([bms_command], lines 269-273; [overall_checksum], lines 138-148).
    The claim is that a received frame validates exactly when the checksum
    recomputed over its body equals the one it carries.  The reply here
    carries [FD3D], which is the 16-bit checksum of its 14 body bytes, and
    it does not validate: the call returns [-1] at the hex test before it
    gets to the comparison, and the comparison of lines 269-270 would
    itself report a mismatch on this frame (it would take the two raw
    bytes at [info[1]] as the transmitted value and the 32-bit negated sum
    of 13 bytes as the recomputed one). *)
Theorem valid_checksum_not_accepted (p : abi) (fuel : nat) :
  let r := protocol_version_call p fuel (peer_replying reply_normal) 0 in
  u16 (overall_checksum p (slice reply_normal Off.version 14) 14)
  = hextoi4 reply_normal 15
  /\ slice (result_buf r) 0 19 = firstn 19 reply_normal
  /\ out r = match fuel with O => Hung | S _ => Returned (-1) end
  /\ stderr (after r) = match fuel with O => [] | S _ => [NonHex] end
  /\ checksum_wrong p (result_buf r) 1 = true
  /\ 65536 <= overall_checksum p (skipn 1 (result_buf r)) (1 + 12).
Proof. by_run p fuel. Qed.

(** C7 ([bms_command], lines 261-267).  The claim is that a ['G'] in the
    info region of the reply makes the call return the malformed-hex
    error.  With ['G'] as the first info character the test of line 263
    accepts it (it accepts every byte above ['9'] and refuses the digits),
    so nothing is printed and the call never returns: it is still in the
    loop whatever the fuel. *)
Theorem letter_G_not_reported (p : abi) (fuel : nat) :
  let r := protocol_version_call p fuel (peer_replying reply_with_G) 0 in
  at_ (result_buf r) Off.info = ch "G"
  /\ hex_range_test (ch "G") = true
  /\ hex_range_test (ch "7") = false
  /\ out r = Hung
  /\ stderr (after r) = [].
Proof. by_run p fuel. Qed.

(** C8 ([length_checksum], lines 131-136; [bms_command], lines 245-248).
    The claim is that the length code of the received frame is recomputed
    and a mismatch refused.  The reply here carries the length field
    [F002], whose code should be [E]; the length-code message is not
    printed, and the call goes on to the second read (it then returns
    [-1] at the hex test).  The test of line 245 is made on the request's
    own length field. *)
Theorem bad_length_code_not_refused (p : abi) (fuel : nat) :
  let w := peer_replying reply_bad_length_code in
  let r := protocol_version_call p fuel w 0 in
  hextoi4 (result_buf r) Off.length = 0xF002
  /\ length_checksum (Z.land 0xF002 0x0fff) = 0xE000
  /\ length_code_wrong (request_binary 0 Cmd.PROTOCOL_VER_GET 1) = false
  /\ stderr (after r) = match fuel with O => [] | S _ => [NonHex] end
  /\ issued w r
     = [Tcflush; WriteOf (wire_frame p 0 Cmd.PROTOCOL_VER_GET [0]);
        Tcdrain; ReadOf 18; ReadOf 1].
Proof. by_run p fuel. Qed.

(** C9 ([bms_command], lines 202-254).  In every run in which a read is
    issued, the calls on the line are flush, write of the frame, drain and
    the 18-byte read, in this order and with nothing before or between
    them, followed by at most one more call, which is the second read;
    and the second read is issued whenever the first one got its 18
    bytes. *)
Theorem transport_call_order (p : abi) (fuel : nat) (w : world)
    (address command : Z) (info result : list byte) :
  let r := bms_command p fuel w address command info result in
  let frame := wire_frame p address command info in
  (exists n, In (ReadOf n) (issued w r)) ->
  calls (after r) = calls w ++ issued w r
  /\ (issued w r = [Tcflush; WriteOf frame; Tcdrain; ReadOf 18]
      \/ exists n,
           issued w r = [Tcflush; WriteOf frame; Tcdrain; ReadOf 18; ReadOf n])
  /\ (forall d rest,
        reads w = Some d :: rest -> (18 <= length d)%nat ->
        exists n,
          issued w r = [Tcflush; WriteOf frame; Tcdrain; ReadOf 18; ReadOf n]).
Proof.
  intros r frame [n Hn].
  assert (Htail : forall d rest,
             reads w = Some d :: rest -> (18 <= length d)%nat ->
             exists n,
               issued w r = [Tcflush; WriteOf frame; Tcdrain; ReadOf 18; ReadOf n]).
  { intros d rest Hreads Hd. eexists.
    apply (tail_read_follows p fuel w address command info result d rest);
      [exists n; exact Hn | exact Hreads | exact Hd]. }
  destruct (bms_command_calls p fuel w address command info result)
    as [[_ H]|[[_ H]|H]]; fold r in H; fold frame in H.
  - rewrite H in Hn. destruct Hn.
  - rewrite H in Hn. cbn in Hn.
    destruct Hn as [Hn|[Hn|[]]]; discriminate.
  - split; [|split; [exact H | exact Htail]]. clear Htail.
    unfold issued in *.
    assert (Hpre : firstn (length (calls w)) (calls (after r)) = calls w);
      [|rewrite <- Hpre at 1; apply eq_sym, firstn_skipn].
    subst r. clear. unfold bms_command.
    assert (Happ : forall l X : list call, firstn (length l) (l ++ X) = l).
    { intros l X. rewrite firstn_app, Nat.sub_diag, firstn_O, app_nil_r.
      apply firstn_all. }
    destruct (negb (Z.of_nat (length info) <? 4096)); [apply firstn_all|].
    pose proof (write_calls (tcflush w)
                  (encode_body p
                     (encode_header
                        (request_binary address command
                           (Z.of_nat (length info)))) info)
                  (u32 (Z.of_nat (length info) + 18))) as Hw.
    destruct (write _ _ _) as [ret w1]. cbn [snd] in Hw.
    cbn [tcflush record_call calls] in Hw. rewrite <- app_assoc in Hw.
    destruct (ret <? 18); [cbn; rewrite Hw; apply Happ|].
    pose proof (read_calls (tcdrain w1) 18) as Hr1.
    destruct (read _ 18) as [[ret1 data1] w2]. cbn [snd] in Hr1.
    cbn [tcdrain record_call calls] in Hr1.
    rewrite Hw, <- !app_assoc in Hr1.
    destruct (negb (ret1 =? 18)); [cbn; rewrite Hr1; apply Happ|].
    destruct (parse_header _) as [r invalid].
    destruct invalid; [cbn; rewrite Hr1; apply Happ|].
    destruct (length_code_wrong _); [cbn; rewrite Hr1; apply Happ|].
    pose proof (read_calls w2 (b_length r)) as Hr2.
    destruct (read _ (b_length r)) as [[ret2 data2] w3]. cbn [snd] in Hr2.
    rewrite Hr1, <- !app_assoc in Hr2.
    destruct (negb (ret2 =? b_length r)); [cbn; rewrite Hr2; apply Happ|].
    destruct (hex_check_loop _ _ _ _ _) as [[|]|];
      try (cbn; rewrite Hr2; apply Happ).
    destruct (checksum_wrong _ _ _); [cbn; rewrite Hr2; apply Happ|].
    destruct (negb _); cbn; rewrite Hr2; apply Happ.
Qed.

Lemma transport_call_order_witness :
  let w := peer_replying reply_status_02 in
  let r := bms_command x86_64 1 w 0 Cmd.PROTOCOL_VER_GET [0] blank in
  (exists n, In (ReadOf n) (issued w r))
  /\ issued w r = [Tcflush; WriteOf (wire_frame x86_64 0 Cmd.PROTOCOL_VER_GET [0]);
                   Tcdrain; ReadOf 18; ReadOf 1].
Proof.
  intros w r.
  assert (H : exists n, In (ReadOf n) (issued w r)).
  { exists 18. vm_compute. do 3 right. left. reflexivity. }
  split; [exact H|].
  destruct (transport_call_order x86_64 1 w 0 Cmd.PROTOCOL_VER_GET [0] blank H)
    as (_ & _ & Ht).
  destruct (Ht reply_status_02 [Some (skipn 18 reply_status_02)] eq_refl)
    as [n Hn]; [vm_compute; lia|].
  vm_compute. reflexivity.
Defined.

(** C10 ([bms_command], lines 261-267).  The claim is that the loop ends
    after [r.length + 4] iterations.  On the reply whose info region
    starts with ['A'] the decoded length is 1 and the loop is never left:
    its counter [j] stays 0 (the increment is [i++]), the byte at
    [info[0]] passes the test every time, and with any amount of fuel,
    from any value of [i], the loop is still running.  ([r] is the run
    as it stands when the loop is entered.) *)
Theorem validation_loop_runs_on (p : abi) (fuel : nat) (i : Z) :
  let r := protocol_version_call p 0 (peer_replying reply_with_A) 0 in
  issued (peer_replying reply_with_A) r
  = [Tcflush; WriteOf (wire_frame p 0 Cmd.PROTOCOL_VER_GET [0]);
     Tcdrain; ReadOf 18; ReadOf 1]
  /\ at_ (result_buf r) Off.info = ch "A"
  /\ hex_check_loop fuel (result_buf r) 1 0 i = None.
Proof.
  cbv zeta. rewrite hex_check_loop_first_byte by lia.
  destruct fuel; each_abi p; vm_compute; repeat split; reflexivity.
Qed.

(** * Further properties of the code *)

(** ** Hex codec *)

Lemma nibble_of_low_bits (x k w : Z) :
  0 <= k -> k + 4 <= w ->
  Z.land (Z.shiftr (x mod 2 ^ w) k) 0xf = Z.land (Z.shiftr x k) 0xf.
Proof.
  intros Hk Hw. rewrite <- Z.land_ones by lia.
  apply Z.bits_inj'. intros i Hi.
  rewrite !Z.land_spec, !Z.shiftr_spec, Z.land_spec by lia.
  change 0xf with (Z.ones 4).
  rewrite !Z.testbit_ones_nonneg by lia.
  destruct (i <? 4) eqn:E.
  - apply Z.ltb_lt in E.
    assert (H : (i + k <? w) = true) by (apply Z.ltb_lt; lia).
    rewrite H, !andb_true_r. reflexivity.
  - rewrite !andb_false_r. reflexivity.
Qed.

Lemma hex2_u8 (v : Z) : hex2 (u8 v) = hex2 v.
Proof.
  unfold hex2, u8. change 256 with (2 ^ 8).
  rewrite (nibble_of_low_bits v 4 8) by lia.
  pose proof (nibble_of_low_bits v 0 8 ltac:(lia) ltac:(lia)) as H0.
  rewrite !Z.shiftr_0_r in H0. rewrite H0. reflexivity.
Qed.

Lemma hex4_u16 (v : Z) : hex4 (u16 v) = hex4 v.
Proof.
  unfold hex4, u16. change 65536 with (2 ^ 16).
  rewrite (nibble_of_low_bits v 12 16), (nibble_of_low_bits v 8 16),
    (nibble_of_low_bits v 4 16) by lia.
  pose proof (nibble_of_low_bits v 0 16 ltac:(lia) ltac:(lia)) as H0.
  rewrite !Z.shiftr_0_r in H0. rewrite H0. reflexivity.
Qed.

Lemma hextoi2_hex2 (v : Z) : hextoi2 (hex2 v) 0 = u8 v.
Proof.
  rewrite <- hex2_u8. generalize (u8_range v). generalize (u8 v).
  intros x Hx. apply Z.eqb_eq.
  apply (below_spec 256 (fun x => hextoi2 (hex2 x) 0 =? x));
    [vm_compute; reflexivity | exact Hx].
Qed.

Lemma hextoi4_hex4 (v : Z) : hextoi4 (hex4 v) 0 = u16 v.
Proof.
  rewrite <- hex4_u16. generalize (u16_range v). generalize (u16 v).
  intros x Hx. apply Z.eqb_eq.
  apply (below_spec 65536 (fun x => hextoi4 (hex4 x) 0 =? x));
    [vm_compute; reflexivity | exact Hx].
Qed.

(** X1 ([hex2], [hex4], lines 87-101; [hextoi], lines 150-163).  What
    [hex2] and [hex4] emit, read back digit by digit with [hextoi], most
    significant digit first, is the number encoded, reduced to 8 and to
    16 bits: [hextoi] inverts the encoders, for every argument. *)
Theorem hextoi_reads_back_hex (v : Z) :
  hextoi2 (hex2 v) 0 = u8 v /\ hextoi4 (hex4 v) 0 = u16 v.
Proof. split; [apply hextoi2_hex2 | apply hextoi4_hex4]. Qed.

(** X2 ([hex1b], lines 103-116; [hextoi], lines 150-163).  [hex1b] and
    [hextoi] accept the same characters: where [hextoi] gives [-1],
    [hex1b] gives 0 and sets the flag; elsewhere [hex1b] leaves the flag
    as it was and gives the same value as [hextoi] for a digit and six
    more than [hextoi] for a letter. *)
Theorem hex1b_against_hextoi (c : byte) (invalid : bool) :
  hex1b c invalid =
  if hextoi c =? -1 then (0, true)
  else ((if c <=? ch "9" then hextoi c else hextoi c + 6), invalid).
Proof.
  unfold hex1b, hextoi, u8.
  change (ch "0") with 48; change (ch "9") with 57;
    change (ch "a") with 97; change (ch "f") with 102;
    change (ch "A") with 65; change (ch "F") with 70.
  destruct (48 <=? c) eqn:E1; destruct (c <=? 57) eqn:E2; cbn [andb];
    [ rewrite Z.mod_small by lia;
      destruct (c - 48 =? -1) eqn:E; [lia | reflexivity] | | | ];
    (destruct (97 <=? c) eqn:E3; destruct (c <=? 102) eqn:E4; cbn [andb];
     [ rewrite Z.mod_small by lia;
       destruct (c - 97 + 10 =? -1) eqn:E; [lia | f_equal; lia] | | | ];
     (destruct (65 <=? c) eqn:E5; destruct (c <=? 70) eqn:E6; cbn [andb];
      [ rewrite Z.mod_small by lia;
        destruct (c - 65 + 10 =? -1) eqn:E; [lia | f_equal; lia] | | | ];
      reflexivity)).
Qed.

(** X3 ([hex2b], [hex4b], lines 118-129).  Whatever characters they are
    given, the two- and four-character decoders return 0 or 1, and they
    never clear the flag. *)
Theorem hex_decoders_return_0_or_1 (ascii : list byte) (invalid : bool) :
  (fst (hex2b ascii invalid) = 0 \/ fst (hex2b ascii invalid) = 1)
  /\ (fst (hex4b ascii invalid) = 0 \/ fst (hex4b ascii invalid) = 1)
  /\ snd (hex2b ascii true) = true
  /\ snd (hex4b ascii true) = true.
Proof.
  assert (Hor : forall a b,
             fst (logical_or a b) = 0 \/ fst (logical_or a b) = 1).
  { intros a b. unfold logical_or.
    destruct (fst a =? 0); [destruct (fst (b (snd a)) =? 0)|]; cbn; auto. }
  assert (Hkeep : forall c, snd (hex1b c true) = true).
  { intros c. unfold hex1b.
    destruct (_ && _); [reflexivity|].
    destruct (_ && _); [reflexivity|].
    destruct (_ && _); reflexivity. }
  assert (Hs : forall a k s, snd (shifted_nibble a k s true) = true).
  { intros a k s. unfold shifted_nibble. cbn [snd]. apply Hkeep. }
  assert (Hlo : forall a b,
             snd a = true -> snd (b true) = true ->
             snd (logical_or a b) = true).
  { intros a b Ha Hb. unfold logical_or.
    destruct (fst a =? 0); cbn [snd]; [rewrite Ha; exact Hb | exact Ha]. }
  repeat split.
  - unfold hex2b. cbn [fst].
    destruct (Hor (shifted_nibble ascii 0 4 invalid) (shifted_nibble ascii 1 0))
      as [-> | ->]; [left | right]; reflexivity.
  - unfold hex4b. cbn [fst].
    match goal with
    | |- context [u16 (fst (logical_or ?a ?b))] =>
        destruct (Hor a b) as [-> | ->]; [left | right]; reflexivity
    end.
  - unfold hex2b. cbn [snd]. apply Hlo; apply Hs.
  - unfold hex4b. cbn [snd].
    repeat (apply Hlo; [|apply Hs]). apply Hs.
Qed.

(** X4 ([hex2], [hex4], [hex2b], [hex4b], lines 87-129).  On what the
    encoders emit, the decoders only tell whether the encoded number was
    zero: [hex2b] of [hex2 v] is 0 when the low 8 bits of [v] are zero and
    1 otherwise, likewise [hex4b] of [hex4 v] for the low 16 bits, and the
    flag is left as it was. *)
Theorem decoders_on_encoder_output (v : Z) (invalid : bool) :
  hex2b (hex2 v) invalid = (nonzero (u8 v), invalid)
  /\ hex4b (hex4 v) invalid = (nonzero (u16 v), invalid).
Proof.
  split.
  - rewrite <- hex2_u8. apply hex2b_hex2, u8_range.
  - rewrite <- hex4_u16. apply hex4b_hex4, u16_range.
Qed.

(** X5 ([hex2b], lines 118-122).  When the first character decodes to a
    nonzero value, [hex2b] returns 1 without looking at the second
    character: whatever that is, it is not reported. *)
Theorem hex2b_ignores_second_character (c0 c1 : byte) (invalid : bool) :
  fst (hex1b c0 invalid) <> 0 ->
  hex2b [c0; c1] invalid = (1, snd (hex1b c0 invalid)).
Proof.
  intros H. unfold hex2b, logical_or, shifted_nibble.
  change (at_ [c0; c1] 0) with c0. cbn [fst snd].
  assert (Hr : 0 <= fst (hex1b c0 invalid) < 256).
  { unfold hex1b.
    destruct (_ && _); [apply u8_range|].
    destruct (_ && _); [apply u8_range|].
    destruct (_ && _); [apply u8_range|]. cbn. lia. }
  assert (Hs : (Z.shiftl (fst (hex1b c0 invalid)) 4 =? 0) = false).
  { apply Z.eqb_neq. rewrite Z.shiftl_mul_pow2 by lia. lia. }
  rewrite Hs. reflexivity.
Qed.

Lemma hex2b_ignores_second_character_witness :
  fst (hex1b (ch "1") false) <> 0
  /\ hex2b [ch "1"; ch "G"] false = (1, snd (hex1b (ch "1") false)).
Proof.
  split; [vm_compute; discriminate|].
  apply hex2b_ignores_second_character. vm_compute; discriminate.
Defined.

(** ** Checksums *)

(** X6 ([length_checksum], lines 131-136; [bms_command], line 182).  For
    every length, the length field built from it, which is
    [length_checksum(length) | (length & 0x0fff)], fits in 16 bits, keeps
    the low 12 bits of the length, has the checksum alone in the high
    four bits, and the sum of its four nibbles is a multiple of 16. *)
Theorem length_field_nibbles_cancel (length : Z) :
  let field := Z.lor (length_checksum length) (Z.land length 0x0fff) in
  0 <= field < 65536
  /\ Z.land field 0x0fff = Z.land length 0x0fff
  /\ Z.land field 0xf000 = length_checksum length
  /\ nibble_sum field mod 16 = 0.
Proof.
  cbv zeta. rewrite <- (length_checksum_low12 length).
  assert (Hm : 0 <= Z.land length 0xfff < 4096).
  { change 0xfff with (Z.ones 12). rewrite Z.land_ones by lia.
    apply Z.mod_pos_bound. lia. }
  revert Hm. generalize (Z.land length 0xfff). intros m Hm.
  apply (below_spec 4096
           (fun m =>
              let field := Z.lor (length_checksum m) m in
              (0 <=? field) && (field <? 65536)
              && (Z.land field 0x0fff =? m)
              && (Z.land field 0xf000 =? length_checksum m)
              && (nibble_sum field mod 16 =? 0)))
    in Hm; [|vm_compute; reflexivity].
  cbv zeta in Hm.
  repeat (apply andb_prop in Hm; destruct Hm as [Hm ?]).
  repeat split; try (apply Z.eqb_eq; assumption);
    try (apply Z.leb_le; assumption); try (apply Z.ltb_lt; assumption).
Qed.

Lemma checksum_loop_sum (p : abi) (data : list byte) :
  forall acc,
    fold_left (fun sum c => u32 (sum + char_value p c)) data (u32 acc)
    = u32 (acc + char_sum p data).
Proof.
  induction data as [|c data IH]; intros acc; cbn [fold_left].
  - unfold char_sum. cbn. rewrite Z.add_0_r. reflexivity.
  - assert (H : u32 (u32 acc + char_value p c) = u32 (acc + char_value p c)).
    { unfold u32. rewrite Zplus_mod_idemp_l. reflexivity. }
    rewrite H, IH. unfold char_sum. cbn [map fold_right].
    f_equal. lia.
Qed.

(** X7 ([overall_checksum], lines 138-148).  The checksum of the first
    [length] bytes is the negated sum of their [char] values modulo 2^32:
    the wrap-around of the running sum loses nothing, and adding the sum
    back to the checksum gives 0 modulo 2^32. *)
Theorem overall_checksum_negates_sum (p : abi) (data : list byte)
    (length : Z) :
  let body := firstn (Z.to_nat length) data in
  overall_checksum p data length = u32 (- char_sum p body)
  /\ u32 (overall_checksum p data length + char_sum p body) = 0.
Proof.
  cbv zeta. set (s := char_sum p _).
  assert (H : overall_checksum p data length = u32 (- s)).
  { unfold overall_checksum.
    change 0 with (u32 0) at 1. rewrite checksum_loop_sum. cbn [Z.add].
    fold s. unfold u32. rewrite Zplus_mod_idemp_l.
    replace (Z.lnot (s mod 4294967296) + 1) with (- (s mod 4294967296))
      by (unfold Z.lnot; lia).
    rewrite <- (Z.sub_0_l (s mod _)), <- (Z.sub_0_l s).
    rewrite Zminus_mod_idemp_r. reflexivity. }
  rewrite H. split; [reflexivity|].
  unfold u32. rewrite Zplus_mod_idemp_l.
  replace (- s + s) with 0 by lia. reflexivity.
Qed.

(** X8 ([overall_checksum], lines 138-148).  On bytes below 128, which
    all hex characters are, the checksum does not depend on whether
    [char] is signed or on the byte order. *)
Theorem overall_checksum_portable_on_ascii (p q : abi) (data : list byte)
    (length : Z) :
  Forall (fun b => 0 <= b < 128) data ->
  overall_checksum p data length = overall_checksum q data length.
Proof.
  intros H. unfold overall_checksum. do 2 f_equal. f_equal.
  assert (Hf : Forall (fun b => 0 <= b < 128) (firstn (Z.to_nat length) data)).
  { rewrite <- (firstn_skipn (Z.to_nat length) data) in H.
    apply Forall_app in H. apply H. }
  revert Hf. generalize (firstn (Z.to_nat length) data). clear.
  intros l Hl. generalize 0.
  induction Hl as [|b l Hb Hl IH]; intros acc; cbn [fold_left].
  - reflexivity.
  - assert (Hc : forall r, char_value r b = b).
    { intros r. unfold char_value.
      replace (128 <=? b) with false by (symmetry; apply Z.leb_gt; lia).
      rewrite andb_false_r. reflexivity. }
    rewrite !Hc. apply IH.
Qed.

Lemma overall_checksum_portable_on_ascii_witness :
  Forall (fun b => 0 <= b < 128) (bytes_of "20004600E00200")
  /\ overall_checksum x86_64 (bytes_of "20004600E00200") 14
     = overall_checksum armhf (bytes_of "20004600E00200") 14.
Proof.
  assert (H : Forall (fun b => 0 <= b < 128) (bytes_of "20004600E00200")).
  { unfold bytes_of. cbn [list_ascii_of_string map].
    repeat constructor; vm_compute; congruence. }
  split; [exact H|].
  apply overall_checksum_portable_on_ascii. exact H.
Defined.

(** ** Runs of [bms_command], in general *)

(** The test of line 263 accepts exactly the bytes above ['9']. *)
Lemma hex_range_test_above_9 (c : byte) : hex_range_test c = (ch "9" <? c).
Proof.
  unfold hex_range_test.
  change (ch "0") with 48; change (ch "9") with 57;
    change (ch "a") with 97; change (ch "f") with 102;
    change (ch "A") with 65; change (ch "F") with 70.
  destruct (57 <? c) eqn:E.
  - apply Z.ltb_lt in E.
    replace (48 <=? c) with true by (symmetry; apply Z.leb_le; lia).
    reflexivity.
  - apply Z.ltb_ge in E. rewrite andb_false_r. cbn [orb].
    replace (97 <=? c) with false by (symmetry; apply Z.leb_gt; lia).
    replace (65 <=? c) with false by (symmetry; apply Z.leb_gt; lia).
    reflexivity.
Qed.

Lemma nonzero_range (v : Z) : 0 <= nonzero v < 65536.
Proof. unfold nonzero. destruct (v =? 0); lia. Qed.

Lemma bms_command_is_effective (p : abi) (fuel : nat) (w : world)
    (address command : Z) (info result : list byte) :
  bms_command p fuel w address command info result
  = bms_command_effective p fuel w address command info result.
Proof.
  unfold bms_command, bms_command_effective.
  destruct (negb (Z.of_nat (length info) <? 4096)) eqn:Hb; [reflexivity|].
  assert (Hlen : (length info < 4096)%nat).
  { apply negb_false_iff, Z.ltb_lt in Hb. lia. }
  clear Hb.
  rewrite (parse_encoded_request p address command info Hlen).
  rewrite request_length_code. cbn [b_length b_function].
  destruct (write _ _ _) as [ret w1].
  destruct (ret <? 18); [reflexivity|].
  destruct (read _ 18) as [[ret1 data1] w2].
  destruct (negb (ret1 =? 18)); [reflexivity|].
  destruct (read w2 _) as [[ret2 data2] w3].
  destruct (negb (ret2 =? _)); [reflexivity|].
  rewrite hex_check_loop_first_byte by apply nonzero_range.
  rewrite hex_range_test_above_9.
  destruct fuel; [reflexivity|].
  destruct (ch "9" <? _); reflexivity.
Qed.

Lemma write_stderr (w : world) (buf : list byte) (count : Z) :
  stderr (snd (write w buf count)) = stderr w.
Proof. unfold write. destruct (writes w) as [|[k|] rest]; reflexivity. Qed.

Lemma read_stderr (w : world) (count : Z) :
  stderr (snd (read w count)) = stderr w.
Proof. unfold read. destruct (reads w) as [|[d|] rest]; reflexivity. Qed.

(** X9 ([bms_command], lines 165-279).  Whatever the request, the line
    and the reply, a call that returns returns [-1]: the status of line
    278 is never returned. *)
Theorem bms_command_only_returns_minus_one (p : abi) (fuel : nat) (w : world)
    (address command : Z) (info result : list byte) (v : Z) :
  out (bms_command p fuel w address command info result) = Returned v ->
  v = -1.
Proof.
  rewrite bms_command_is_effective. unfold bms_command_effective.
  destruct (negb _); [discriminate|].
  destruct (write _ _ _) as [ret w1].
  destruct (ret <? 18); [discriminate|].
  destruct (read _ 18) as [[ret1 data1] w2].
  destruct (negb (ret1 =? 18)); [cbn; congruence|].
  cbv zeta.
  destruct (read w2 _) as [[ret2 data2] w3].
  destruct (negb (ret2 =? _)); [cbn; congruence|].
  destruct fuel; [discriminate|].
  destruct (ch "9" <? _); [discriminate | cbn; congruence].
Qed.

Lemma bms_command_only_returns_minus_one_witness :
  out (bms_command x86_64 1 (peer_replying reply_normal) 0
         Cmd.PROTOCOL_VER_GET [0] blank) = Returned (-1)
  /\ -1 = -1.
Proof.
  assert (H : out (bms_command x86_64 1 (peer_replying reply_normal) 0
                     Cmd.PROTOCOL_VER_GET [0] blank) = Returned (-1))
    by (vm_compute; reflexivity).
  split; [exact H|].
  apply (bms_command_only_returns_minus_one _ _ _ _ _ _ _ _ H).
Defined.

(** X10 ([bms_command], lines 261-267).  A run is settled by the first
    test of the loop: with one unit of fuel or with any larger amount the
    run is the same, so a call that has not returned by then never
    returns; and with no fuel the run is either that same run or is cut
    at the entry of the loop. *)
Theorem bms_command_settled_by_first_test (p : abi) (fuel : nat) (w : world)
    (address command : Z) (info result : list byte) :
  bms_command p (S fuel) w address command info result
  = bms_command p 1 w address command info result
  /\ (bms_command p 0 w address command info result
      = bms_command p 1 w address command info result
      \/ out (bms_command p 0 w address command info result) = Hung).
Proof.
  split; [apply fuel_irrelevant|].
  rewrite !bms_command_is_effective. unfold bms_command_effective.
  destruct (negb _); [left; reflexivity|].
  destruct (write _ _ _) as [ret w1].
  destruct (ret <? 18); [left; reflexivity|].
  destruct (read _ 18) as [[ret1 data1] w2].
  destruct (negb (ret1 =? 18)); [left; reflexivity|].
  cbv zeta.
  destruct (read w2 _) as [[ret2 data2] w3].
  destruct (negb (ret2 =? _)); [left; reflexivity|].
  right. reflexivity.
Qed.

(** X11 ([bms_command], lines 261-267).  For every reply and every
    decoded length the loop depends on the byte [result->info[0]] alone:
    if that byte is above ['9'] the loop never ends, and otherwise it
    leaves by [return -1] in its first iteration.  It is never left
    through its condition. *)
Theorem validation_loop_depends_on_first_byte (result : list byte)
    (r_length : Z) (fuel : nat) (i : Z) :
  0 <= r_length < 65536 ->
  hex_check_loop (S fuel) result r_length 0 i
  = (if ch "9" <? at_ result Off.info then None else Some EarlyReturn)
  /\ hex_check_loop fuel result r_length 0 i <> Some Fallthrough.
Proof.
  intros Hr. split.
  - rewrite hex_check_loop_first_byte by exact Hr.
    rewrite hex_range_test_above_9. reflexivity.
  - apply hex_check_loop_no_fallthrough. exact Hr.
Qed.

Lemma validation_loop_depends_on_first_byte_witness :
  0 <= 1 < 65536
  /\ hex_check_loop 5 reply_with_G 1 0 18 = None.
Proof.
  split; [lia|].
  apply (validation_loop_depends_on_first_byte reply_with_G 1 4 18). lia.
Defined.

Lemma one_diagnostic_exit (p : abi) (fuel : nat) (w : world)
    (address command : Z) (info result : list byte) (c : Z) :
  out (bms_command p fuel w address command info result) = Exited c -> c = 1.
Proof.
  unfold bms_command.
  destruct (negb _); [discriminate|].
  destruct (write _ _ _) as [ret w1].
  destruct (ret <? 18); [cbn; congruence|].
  destruct (read _ 18) as [[ret1 data1] w2].
  destruct (negb (ret1 =? 18)); [discriminate|].
  destruct (parse_header _) as [r invalid].
  destruct invalid; [discriminate|].
  destruct (length_code_wrong _); [discriminate|].
  destruct (read _ (b_length r)) as [[ret2 data2] w3].
  destruct (negb (ret2 =? b_length r)); [discriminate|].
  destruct (hex_check_loop _ _ _ _ _) as [[|]|]; try discriminate.
  destruct (checksum_wrong _ _ _); discriminate.
Qed.

(** X12 ([bms_command], lines 191-279).  A call prints at most one
    message, and which one goes with how the call ends: the message of
    the assertion when it stops there, nothing when it stays in the loop,
    the write error before [exit(1)], and one of the read error, the
    info-read error and the non-hex message before [return -1].
    "Length code incorrect.", "Checksum mismatch." and "Return code" are
    never printed. *)
Theorem one_diagnostic_per_run (p : abi) (fuel : nat) (w : world)
    (address command : Z) (info result : list byte) :
  let r := bms_command p fuel w address command info result in
  exists l,
    stderr (after r) = stderr w ++ l
    /\ match out r with
       | Aborted => l = [AssertionFailed]
       | Hung => l = []
       | Exited c => c = 1 /\ l = [PerrorWrite]
       | Returned v =>
           v = -1
           /\ (l = [PerrorRead] \/ l = [PerrorInfoRead] \/ l = [NonHex])
       end.
Proof.
  cbv zeta. rewrite bms_command_is_effective. unfold bms_command_effective.
  destruct (negb _).
  { exists [AssertionFailed]. split; reflexivity. }
  pose proof (write_stderr (tcflush w)
                (encode_body p
                   (encode_header
                      (request_binary address command
                         (Z.of_nat (length info)))) info)
                (u32 (Z.of_nat (length info) + 18))) as Hw.
  destruct (write _ _ _) as [ret w1]. cbn [snd] in Hw.
  change (stderr (tcflush w)) with (stderr w) in Hw.
  destruct (ret <? 18).
  { exists [PerrorWrite]. cbn. rewrite Hw. auto. }
  pose proof (read_stderr (tcdrain w1) 18) as Hr1.
  destruct (read _ 18) as [[ret1 data1] w2]. cbn [snd] in Hr1.
  change (stderr (tcdrain w1)) with (stderr w1) in Hr1. rewrite Hw in Hr1.
  destruct (negb (ret1 =? 18)).
  { exists [PerrorRead]. cbn. rewrite Hr1. auto. }
  cbv zeta.
  match goal with
  | |- context [read w2 ?n] => pose proof (read_stderr w2 n) as Hr2
  end.
  destruct (read w2 _) as [[ret2 data2] w3]. cbn [snd] in Hr2.
  rewrite Hr1 in Hr2.
  destruct (negb (ret2 =? _)).
  { exists [PerrorInfoRead]. cbn. rewrite Hr2. auto. }
  destruct fuel.
  { exists []. cbn. rewrite Hr2, app_nil_r. auto. }
  destruct (ch "9" <? _).
  - exists []. cbn. rewrite Hr2, app_nil_r. auto.
  - exists [NonHex]. cbn. rewrite Hr2. auto.
Qed.

(** ** Runs by what the line does *)

(** A run of an accepted request, up to the result of [write]. *)
Ltac start_run Hlen :=
  rewrite bms_command_is_effective; unfold bms_command_effective;
  match goal with
  | |- context [negb (Z.of_nat (length ?info) <? 4096)] =>
      replace (negb (Z.of_nat (length info) <? 4096)) with false
        by (symmetry; apply negb_false_iff, Z.ltb_lt; lia)
  end;
  unfold write, read, tcflush, tcdrain, record_call;
  cbn [calls writes reads stderr].

(** X13 ([bms_command], lines 202-208).  When [write] fails or takes
    fewer than 18 bytes, the call prints the write error and ends the
    process with [exit(1)]: the line has been flushed and written to, but
    it is neither drained nor read, and [*result] is untouched. *)
Theorem short_write_exits (p : abi) (fuel : nat) (w : world)
    (address command : Z) (info result : list byte)
    (accepted : option Z) (ws : list (option Z)) :
  (length info < 4096)%nat ->
  writes w = accepted :: ws ->
  match accepted with Some k => k < 18 | None => True end ->
  bms_command p fuel w address command info result
  = mk_run (Exited 1)
      (mk_world
         (calls w ++ [Tcflush; WriteOf (wire_frame p address command info)])
         ws (reads w) (stderr w ++ [PerrorWrite]))
      result.
Proof.
  intros Hlen Hws Hk. start_run Hlen. rewrite Hws.
  fold (wire_frame p address command info).
  assert (Hc : forall x : list call,
             (calls w ++ [Tcflush]) ++ x = calls w ++ Tcflush :: x).
  { intros x. rewrite <- app_assoc. reflexivity. }
  destruct accepted as [k|].
  - replace (Z.min (Z.max 0 k) (u32 (Z.of_nat (length info) + 18)) <? 18)
      with true.
    + unfold eprint. cbn [calls writes reads stderr]. rewrite Hc. reflexivity.
    + symmetry. apply Z.ltb_lt. lia.
  - cbn [Z.ltb Z.compare]. unfold eprint. cbn [calls writes reads stderr].
    rewrite Hc. reflexivity.
Qed.

Lemma short_write_exits_witness :
  let w := mk_world [] [Some 17] [Some reply_normal] [] in
  (length [0] < 4096)%nat
  /\ writes w = Some 17 :: []
  /\ 17 < 18
  /\ out (bms_command x86_64 1 w 0 Cmd.PROTOCOL_VER_GET [0] blank) = Exited 1.
Proof.
  intros w. split; [cbn; lia|]. split; [reflexivity|]. split; [lia|].
  rewrite (short_write_exits x86_64 1 w 0 Cmd.PROTOCOL_VER_GET [0] blank
             (Some 17) []); [reflexivity | cbn; lia | reflexivity | lia].
Defined.

Lemma frame_count (info : list byte) :
  (length info < 4096)%nat ->
  u32 (Z.of_nat (length info) + 18) = Z.of_nat (length info) + 18.
Proof. intros H. unfold u32. apply Z.mod_small. lia. Qed.

Lemma write_accepted (k count : Z) :
  18 <= k -> 18 <= count -> (Z.min (Z.max 0 k) count <? 18) = false.
Proof. intros Hk Hc. apply Z.ltb_ge. lia. Qed.

(** Let the parts of a run that are known go through. *)
Ltac run_on :=
  repeat (progress (cbv beta iota zeta; cbn [calls writes reads stderr])).

(** Split a run on everything the script and the fuel leave open. *)
Ltac split_run :=
  repeat (match goal with
          | |- context [match ?l with [] => _ | _ :: _ => _ end] =>
              destruct l as [|[?|] ?]
          | |- context [if negb ?b then _ else _] => destruct b
          | |- context [match ?f with O => _ | S _ => _ end] => destruct f
          | |- context [if ?b then _ else _] => destruct b
          end; cbn [negb]).

Ltac read_off :=
  unfold issued, eprint; cbn [after calls writes reads stderr out result_buf];
  rewrite <- ?app_assoc; cbn [app];
  rewrite ?skipn_app, ?skipn_all, ?Nat.sub_diag;
  cbn [skipn app firstn].

(** X14 ([bms_command], lines 204-222).  A [write] that takes 18 bytes or
    more counts as done, also when it took less than the whole frame:
    the call makes no second [write], and goes on to drain the line and
    to read the 18 bytes of the header; the only call that can follow is
    the second [read]. *)
Theorem partial_write_is_not_retried (p : abi) (fuel : nat) (w : world)
    (address command : Z) (info result : list byte)
    (k : Z) (ws : list (option Z)) :
  (length info < 4096)%nat ->
  writes w = Some k :: ws -> 18 <= k ->
  let r := bms_command p fuel w address command info result in
  let s := request_binary address command (Z.of_nat (length info)) in
  writes (after r) = ws
  /\ exists rest,
      issued w r
      = [Tcflush; WriteOf (wire_frame p address command info); Tcdrain;
         ReadOf 18] ++ rest
      /\ (rest = [] \/ rest = [ReadOf (nonzero (b_length s))]).
Proof.
  intros Hlen Hws Hk r s. subst r. start_run Hlen. rewrite Hws.
  rewrite write_accepted by (rewrite ?frame_count by exact Hlen; lia).
  fold (wire_frame p address command info). fold s.
  cbv zeta. split_run; read_off;
    (split; [reflexivity|]); eexists; (split; [reflexivity|]); auto.
Qed.

Lemma partial_write_is_not_retried_witness :
  let w := mk_world [] [Some 18] [Some reply_normal] [] in
  (length [0] < 4096)%nat /\ writes w = Some 18 :: [] /\ 18 <= 18
  /\ length (wire_frame x86_64 0 Cmd.PROTOCOL_VER_GET [0]) = 19%nat
  /\ writes (after (bms_command x86_64 1 w 0 Cmd.PROTOCOL_VER_GET [0] blank))
     = [].
Proof.
  intros w. split; [cbn; lia|]. split; [reflexivity|]. split; [lia|].
  split; [vm_compute; reflexivity|].
  apply (partial_write_is_not_retried x86_64 1 w 0 Cmd.PROTOCOL_VER_GET [0]
           blank 18 []); [cbn; lia | reflexivity | lia].
Defined.

(** X15 ([bms_command], lines 218-227).  When the first [read] fails or
    delivers fewer than 18 bytes (the timeout), the call prints the read
    error and returns [-1] without a second [read]; the bytes that did
    arrive are left at the start of [*result]. *)
Theorem short_header_read_returns (p : abi) (fuel : nat) (w : world)
    (address command : Z) (info result : list byte)
    (k : Z) (ws : list (option Z))
    (reply : option (list byte)) (rest : list (option (list byte))) :
  (length info < 4096)%nat ->
  writes w = Some k :: ws -> 18 <= k ->
  reads w = reply :: rest -> (length (delivered reply) < 18)%nat ->
  bms_command p fuel w address command info result
  = mk_run (Returned (-1))
      (mk_world
         (calls w ++ [Tcflush; WriteOf (wire_frame p address command info);
                      Tcdrain; ReadOf 18])
         ws rest (stderr w ++ [PerrorRead]))
      (blit result Off.start (delivered reply)).
Proof.
  intros Hlen Hws Hk Hrs Hd. start_run Hlen. rewrite Hws, Hrs.
  rewrite write_accepted by (rewrite ?frame_count by exact Hlen; lia).
  fold (wire_frame p address command info).
  destruct reply as [d|]; cbn [delivered] in *; run_on.
  - rewrite firstn_all2 by (change (Z.to_nat 18) with 18%nat; lia).
    replace (Z.of_nat (length d) =? 18) with false
      by (symmetry; apply Z.eqb_neq; lia).
    cbn [negb]. run_on. unfold eprint. cbn [calls writes reads stderr].
    rewrite <- !app_assoc. reflexivity.
  - cbn [Z.eqb negb]. unfold eprint. cbn [calls writes reads stderr].
    rewrite <- !app_assoc. reflexivity.
Qed.

Lemma short_header_read_returns_witness :
  let w := mk_world [] [Some 19] [Some (bytes_of "~20004")] [] in
  (length [0] < 4096)%nat /\ writes w = Some 19 :: [] /\ 18 <= 19
  /\ reads w = Some (bytes_of "~20004") :: []
  /\ (length (delivered (Some (bytes_of "~20004"))) < 18)%nat
  /\ out (bms_command x86_64 1 w 0 Cmd.PROTOCOL_VER_GET [0] blank)
     = Returned (-1).
Proof.
  intros w. split; [cbn; lia|]. split; [reflexivity|]. split; [lia|].
  split; [reflexivity|]. split; [cbn; lia|].
  rewrite (short_header_read_returns x86_64 1 w 0 Cmd.PROTOCOL_VER_GET [0]
             blank 19 [] (Some (bytes_of "~20004")) []);
    [reflexivity | cbn; lia | reflexivity | lia | reflexivity | cbn; lia].
Defined.

Lemma info0_after_reads (result x y : list byte) :
  length x = 18%nat ->
  at_ (blit (blit result Off.start x) (Off.info + 5) y) Off.info = at_ x 13.
Proof.
  intros Hx. unfold blit, at_.
  change (Z.to_nat Off.start) with 0%nat.
  change (Z.to_nat (Off.info + 5)) with 18%nat.
  change (Z.to_nat Off.info) with 13%nat. change (Z.to_nat 13) with 13%nat.
  rewrite firstn_O. cbn [app].
  rewrite firstn_app, Hx, Nat.sub_diag, firstn_O, app_nil_r.
  rewrite firstn_all2 by lia.
  rewrite app_nth1 by lia. reflexivity.
Qed.

(** X16 ([bms_command], lines 220-267).  When the line delivers the 18
    bytes of the header and the byte or no byte the second [read] asks
    for, the end of the call depends on one byte of the reply, the 14th
    (which lands in [result->info[0]]): if it is above ['9'] the call
    never returns and prints nothing; otherwise it prints the non-hex
    message and returns [-1]. *)
Theorem outcome_depends_on_14th_byte (p : abi) (fuel : nat) (w : world)
    (address command : Z) (info result : list byte)
    (k : Z) (ws : list (option Z))
    (d1 d2 : list byte) (rest : list (option (list byte))) :
  (length info < 4096)%nat ->
  writes w = Some k :: ws -> 18 <= k ->
  reads w = Some d1 :: Some d2 :: rest ->
  (18 <= length d1)%nat -> (1 <= length d2)%nat ->
  let r := bms_command p (S fuel) w address command info result in
  let s := request_binary address command (Z.of_nat (length info)) in
  out r = (if ch "9" <? at_ d1 13 then Hung else Returned (-1))
  /\ stderr (after r)
     = stderr w ++ (if ch "9" <? at_ d1 13 then [] else [NonHex])
  /\ issued w r
     = [Tcflush; WriteOf (wire_frame p address command info); Tcdrain;
        ReadOf 18; ReadOf (nonzero (b_length s))]
  /\ reads (after r) = rest.
Proof.
  intros Hlen Hws Hk Hrs H1 H2 r s. subst r. start_run Hlen.
  rewrite Hws, Hrs.
  rewrite write_accepted by (rewrite ?frame_count by exact Hlen; lia).
  fold (wire_frame p address command info). fold s. run_on.
  assert (H18 : length (firstn (Z.to_nat 18) d1) = 18%nat).
  { rewrite length_firstn. change (Z.to_nat 18) with 18%nat. lia. }
  rewrite H18. change (Z.of_nat 18 =? 18) with true. cbn [negb]. run_on.
  assert (Hn : Z.of_nat (length (firstn (Z.to_nat (nonzero (b_length s))) d2))
               = nonzero (b_length s)).
  { rewrite length_firstn. unfold nonzero.
    destruct (b_length s =? 0); cbn; lia. }
  rewrite Hn, Z.eqb_refl. cbn [negb]. run_on.
  rewrite info0_after_reads by exact H18.
  assert (Ha : at_ (firstn (Z.to_nat 18) d1) 13 = at_ d1 13).
  { unfold at_. change (Z.to_nat 18) with 18%nat.
    change (Z.to_nat 13) with 13%nat. rewrite nth_firstn. reflexivity. }
  rewrite Ha.
  destruct (ch "9" <? at_ d1 13); read_off; rewrite ?app_nil_r;
    repeat split; reflexivity.
Qed.

Lemma outcome_depends_on_14th_byte_witness :
  let w := peer_replying reply_with_G in
  (length [0] < 4096)%nat /\ writes w = Some Off.sizeof :: []
  /\ 18 <= Off.sizeof
  /\ reads w = Some reply_with_G :: Some (skipn 18 reply_with_G) :: []
  /\ (18 <= length reply_with_G)%nat
  /\ (1 <= length (skipn 18 reply_with_G))%nat
  /\ out (bms_command x86_64 3 w 0 Cmd.PROTOCOL_VER_GET [0] blank) = Hung.
Proof.
  intros w. split; [cbn; lia|]. split; [reflexivity|].
  split; [vm_compute; discriminate|]. split; [reflexivity|].
  split; [cbn; lia|]. split; [cbn; lia|].
  apply (outcome_depends_on_14th_byte x86_64 2 w 0 Cmd.PROTOCOL_VER_GET [0]
           blank Off.sizeof [] reply_with_G (skipn 18 reply_with_G) []);
    [cbn; lia | reflexivity | vm_compute; discriminate | reflexivity
    | cbn; lia | cbn; lia].
Defined.

(** The count of the second [read]: the request's own length field put
    through [hex4b], which is 0 for 0 or 2048 info bytes and 1 for any
    other accepted length. *)
Lemma tail_count_value (address command len : Z) :
  0 <= len < 4096 ->
  nonzero (b_length (request_binary address command len))
  = if (len =? 0) || (len =? 2048) then 0 else 1.
Proof.
  intros H. unfold request_binary. cbn [b_length].
  apply Z.eqb_eq. revert len H.
  apply (below_spec 4096
           (fun len =>
              nonzero (u16 (Z.lor (length_checksum (u32 (len * 2)))
                                  (Z.land (u32 (len * 2)) 0x0fff)))
              =? (if (len =? 0) || (len =? 2048) then 0 else 1))).
  vm_compute. reflexivity.
Qed.

Lemma bms_command_calls_exact (p : abi) (fuel : nat) (w : world)
    (address command : Z) (info result : list byte) :
  (length info < 4096)%nat ->
  let r := bms_command p fuel w address command info result in
  let frame := wire_frame p address command info in
  let s := request_binary address command (Z.of_nat (length info)) in
  issued w r = [Tcflush; WriteOf frame]
  \/ issued w r = [Tcflush; WriteOf frame; Tcdrain; ReadOf 18]
  \/ issued w r = [Tcflush; WriteOf frame; Tcdrain; ReadOf 18;
                   ReadOf (nonzero (b_length s))].
Proof.
  intros Hlen r frame s. subst r.
  rewrite bms_command_is_effective. unfold bms_command_effective.
  replace (negb (Z.of_nat (length info) <? 4096)) with false
    by (symmetry; apply negb_false_iff, Z.ltb_lt; lia).
  fold s.
  pose proof (write_calls (tcflush w) (encode_body p (encode_header s) info)
                (u32 (Z.of_nat (length info) + 18))) as Hw.
  fold s in Hw. fold (wire_frame p address command info) in Hw.
  fold frame in Hw.
  destruct (write _ _ _) as [ret w1]. cbn [snd] in Hw.
  cbn [tcflush record_call calls] in Hw. rewrite <- app_assoc in Hw.
  destruct (ret <? 18).
  { left. apply issued_app. cbn. exact Hw. }
  right.
  pose proof (read_calls (tcdrain w1) 18) as Hr1.
  destruct (read _ 18) as [[ret1 data1] w2]. cbn [snd] in Hr1.
  cbn [tcdrain record_call calls] in Hr1.
  rewrite Hw, <- !app_assoc in Hr1. cbn [app] in Hr1.
  destruct (negb (ret1 =? 18)); [left; apply issued_app; exact Hr1|].
  right. cbv zeta.
  pose proof (read_calls w2 (nonzero (b_length s))) as Hr2.
  destruct (read w2 _) as [[ret2 data2] w3]. cbn [snd] in Hr2.
  rewrite Hr1, <- !app_assoc in Hr2. cbn [app] in Hr2.
  destruct (negb (ret2 =? _)); [apply issued_app; exact Hr2|].
  destruct fuel; [apply issued_app; exact Hr2|].
  destruct (ch "9" <? _); apply issued_app; exact Hr2.
Qed.

(** X17 ([bms_command], lines 220-259).  The only reads a call ever asks
    for are the 18 bytes of the header and then no byte (for a request
    with 0 or 2048 info bytes) or a single byte (for any other request):
    the length field of the reply has no part in it. *)
Theorem read_counts (p : abi) (fuel : nat) (w : world)
    (address command : Z) (info result : list byte) (n : Z) :
  let r := bms_command p fuel w address command info result in
  let len := Z.of_nat (length info) in
  In (ReadOf n) (issued w r) ->
  n = 18 \/ n = (if (len =? 0) || (len =? 2048) then 0 else 1).
Proof.
  cbv zeta. destruct (Nat.lt_ge_cases (length info) 4096) as [Hlen|Hge].
  - rewrite <- (tail_count_value address command) by lia.
    assert (Hin : forall (f : list byte) (a b : Z) (cs : list call),
               cs = [Tcflush; WriteOf f]
               \/ cs = [Tcflush; WriteOf f; Tcdrain; ReadOf a]
               \/ cs = [Tcflush; WriteOf f; Tcdrain; ReadOf a; ReadOf b] ->
               In (ReadOf n) cs -> n = a \/ n = b).
    { intros f a b cs [Hc|[Hc|Hc]]; subst cs; cbn [In]; intros Hn;
        repeat (destruct Hn as [Hn|Hn]); try discriminate; try contradiction;
        injection Hn as <-; auto. }
    apply Hin with (f := wire_frame p address command info).
    apply (bms_command_calls_exact p fuel w address command info result Hlen).
  - rewrite bms_command_is_effective. unfold bms_command_effective.
    replace (negb (Z.of_nat (length info) <? 4096)) with true
      by (symmetry; apply negb_true_iff, Z.ltb_ge; lia).
    unfold issued. cbn [after]. rewrite skipn_all. intros [].
Qed.

Lemma read_counts_witness :
  let w := peer_replying reply_normal in
  In (ReadOf 1)
     (issued w (bms_command x86_64 1 w 0 Cmd.PROTOCOL_VER_GET [0] blank))
  /\ (1 = 18 \/ 1 = 1).
Proof.
  intros w.
  assert (H : In (ReadOf 1)
                (issued w (bms_command x86_64 1 w 0 Cmd.PROTOCOL_VER_GET [0]
                             blank))).
  { vm_compute. do 4 right. left. reflexivity. }
  split; [exact H|].
  apply (read_counts x86_64 1 w 0 Cmd.PROTOCOL_VER_GET [0] blank 1 H).
Defined.

(** X18 ([bms_command], lines 250-259).  A reply that ends with its first
    18 bytes is refused whenever the request had info bytes (other than
    2048 of them): the second [read] asks for one byte, gets none, and
    the call prints the info-read error and returns [-1]. *)
Theorem missing_tail_byte_returns (p : abi) (fuel : nat) (w : world)
    (address command : Z) (info result : list byte)
    (k : Z) (ws : list (option Z))
    (d1 : list byte) (reply2 : option (list byte))
    (rest : list (option (list byte))) :
  (0 < length info < 4096)%nat -> length info <> 2048%nat ->
  writes w = Some k :: ws -> 18 <= k ->
  reads w = Some d1 :: reply2 :: rest -> (18 <= length d1)%nat ->
  delivered reply2 = [] ->
  bms_command p fuel w address command info result
  = mk_run (Returned (-1))
      (mk_world
         (calls w ++ [Tcflush; WriteOf (wire_frame p address command info);
                      Tcdrain; ReadOf 18; ReadOf 1])
         ws rest (stderr w ++ [PerrorInfoRead]))
      (blit result Off.start (firstn 18 d1)).
Proof.
  intros Hlen H2048 Hws Hk Hrs H1 H2. start_run (proj2 Hlen).
  rewrite Hws, Hrs.
  rewrite write_accepted
    by (rewrite ?frame_count by exact (proj2 Hlen); lia).
  fold (wire_frame p address command info). run_on.
  assert (H18 : length (firstn (Z.to_nat 18) d1) = 18%nat).
  { rewrite length_firstn. change (Z.to_nat 18) with 18%nat. lia. }
  rewrite H18. change (Z.of_nat 18 =? 18) with true. cbn [negb]. run_on.
  rewrite tail_count_value by lia.
  replace ((Z.of_nat (length info) =? 0) || (Z.of_nat (length info) =? 2048))
    with false
    by (symmetry; apply orb_false_iff; split; apply Z.eqb_neq; lia).
  change (Z.to_nat 18) with 18%nat.
  assert (Hb : forall a : list byte,
             blit a (Off.info + 5) [] = a).
  { intros a. unfold blit. cbn [app length]. rewrite Nat.add_0_r.
    apply firstn_skipn. }
  destruct reply2 as [d2|]; cbn [delivered] in H2; run_on.
  - subst d2. cbn [firstn length Z.of_nat Z.eqb negb]. run_on.
    rewrite firstn_nil. cbn [length Z.of_nat Z.eqb negb]. run_on.
    rewrite Hb. unfold eprint. cbn [calls writes reads stderr].
    rewrite <- !app_assoc. reflexivity.
  - cbn [Z.eqb negb]. run_on. rewrite Hb. unfold eprint.
    cbn [calls writes reads stderr]. rewrite <- !app_assoc. reflexivity.
Qed.

Lemma missing_tail_byte_returns_witness :
  let reply := bytes_of "~200046000000FDB4" ++ [CR] in
  let w := mk_world [] [Some 19] [Some reply; None] [] in
  (0 < length [0] < 4096)%nat /\ length [0] <> 2048%nat
  /\ writes w = Some 19 :: [] /\ 18 <= 19
  /\ reads w = Some reply :: None :: [] /\ (18 <= length reply)%nat
  /\ delivered None = []
  /\ out (bms_command x86_64 1 w 0 Cmd.PROTOCOL_VER_GET [0] blank)
     = Returned (-1).
Proof.
  intros reply w. split; [cbn; lia|]. split; [cbn; lia|].
  split; [reflexivity|]. split; [lia|]. split; [reflexivity|].
  split; [cbn; lia|]. split; [reflexivity|].
  rewrite (missing_tail_byte_returns x86_64 1 w 0 Cmd.PROTOCOL_VER_GET [0]
             blank 19 [] reply None []);
    [reflexivity | cbn; lia | cbn; lia | reflexivity | lia | reflexivity
    | cbn; lia | reflexivity].
Defined.

(** ** What a call leaves in [*result] *)

Lemma blit_length (a data : list byte) (off : Z) :
  (Z.to_nat off + length data <= length a)%nat ->
  length (blit a off data) = length a.
Proof.
  intros H. unfold blit.
  rewrite !length_app, length_firstn, length_skipn. lia.
Qed.

Lemma blit_skipn (a data : list byte) (off : Z) (k : nat) :
  (Z.to_nat off + length data <= k)%nat -> (k <= length a)%nat ->
  skipn k (blit a off data) = skipn k a.
Proof.
  intros H Hk. unfold blit.
  rewrite !skipn_app, length_firstn.
  rewrite (skipn_all2 (firstn _ a)) by (rewrite length_firstn; lia).
  rewrite (skipn_all2 data) by lia. cbn [app].
  rewrite skipn_skipn. f_equal. lia.
Qed.

Lemma read_data_length (w : world) (count : Z) :
  (length (snd (fst (read w count))) <= Z.to_nat count)%nat.
Proof.
  unfold read. destruct (reads w) as [|[d|] rest]; cbn [fst snd length];
    try lia.
  apply firstn_le_length.
Qed.

(** X19 ([bms_command], lines 220-252).  A call stores at most 19 bytes
    of the reply: [*result] keeps its size, and everything from its 20th
    byte on is as the caller left it, whatever the peer sends. *)
Theorem result_changes_in_first_19_bytes_only (p : abi) (fuel : nat)
    (w : world) (address command : Z) (info result : list byte) :
  (19 <= length result)%nat ->
  let r := bms_command p fuel w address command info result in
  length (result_buf r) = length result
  /\ skipn 19 (result_buf r) = skipn 19 result.
Proof.
  intros Hres. cbv zeta.
  rewrite bms_command_is_effective. unfold bms_command_effective.
  destruct (negb _); [split; reflexivity|].
  destruct (write _ _ _) as [ret w1].
  destruct (ret <? 18); [split; reflexivity|].
  pose proof (read_data_length (tcdrain w1) 18) as H1.
  destruct (read _ 18) as [[ret1 data1] w2]. cbn [fst snd] in H1.
  change (Z.to_nat 18) with 18%nat in H1.
  assert (L1 : length (blit result Off.start data1) = length result).
  { apply blit_length. change (Z.to_nat Off.start) with 0%nat. lia. }
  assert (S1 : skipn 19 (blit result Off.start data1) = skipn 19 result).
  { apply blit_skipn; [change (Z.to_nat Off.start) with 0%nat; lia | lia]. }
  destruct (negb (ret1 =? 18)); [split; assumption|].
  cbv zeta.
  set (n := nonzero _).
  assert (Hn : (Z.to_nat n <= 1)%nat).
  { unfold n, nonzero. destruct (_ =? 0); cbn; lia. }
  pose proof (read_data_length w2 n) as H2.
  destruct (read w2 n) as [[ret2 data2] w3]. cbn [fst snd] in H2.
  assert (L2 : length (blit (blit result Off.start data1) (Off.info + 5) data2)
               = length result).
  { rewrite blit_length; [exact L1|].
    change (Z.to_nat (Off.info + 5)) with 18%nat. lia. }
  assert (S2 : skipn 19 (blit (blit result Off.start data1) (Off.info + 5)
                              data2)
               = skipn 19 result).
  { rewrite blit_skipn; [exact S1 | | lia].
    change (Z.to_nat (Off.info + 5)) with 18%nat. lia. }
  destruct (negb (ret2 =? n)); [split; assumption|].
  destruct fuel; [split; assumption|].
  destruct (ch "9" <? _); split; assumption.
Qed.

Lemma result_changes_in_first_19_bytes_only_witness :
  (19 <= length blank)%nat
  /\ skipn 19 (result_buf (bms_command x86_64 1 (peer_replying reply_normal)
                             0 Cmd.PROTOCOL_VER_GET [0] blank))
     = skipn 19 blank.
Proof.
  assert (H : (19 <= length blank)%nat).
  { unfold blank. rewrite repeat_length. vm_compute Z.to_nat. lia. }
  split; [exact H|].
  apply (result_changes_in_first_19_bytes_only x86_64 1
           (peer_replying reply_normal) 0 Cmd.PROTOCOL_VER_GET [0] blank H).
Defined.

(** ** [seplos_protocol_version] *)

(** X20 ([seplos_protocol_version], lines 281-307).  The function never
    gets to the version: whenever it returns, it has printed
    "Bad response ffffffff" and returns [-1.0].  Otherwise the process
    has ended in [bms_command] or the call is still in its loop. *)
Theorem protocol_version_is_never_read (p : abi) (fuel : nat) (w : world)
    (address : Z) :
  let r := seplos_protocol_version p fuel w address in
  match version_out r with
  | VReturned v => v = BadResponse /\ bad_response r = Some 0xffffffff
  | VExited c => c = 1 /\ bad_response r = None
  | VAborted => False
  | VHung => bad_response r = None
  end.
Proof.
  cbv zeta. unfold seplos_protocol_version.
  destruct (out (bms_command p fuel w address Cmd.PROTOCOL_VER_GET [0] _))
    as [|c|v|] eqn:E; cbn [version_out bad_response].
  - revert E. unfold bms_command.
    change (negb (Z.of_nat (length [0]) <? 4096)) with false. cbv iota.
    destruct (write _ _ _) as [ret w1].
    destruct (ret <? 18); [discriminate|].
    destruct (read _ 18) as [[ret1 data1] w2].
    destruct (negb (ret1 =? 18)); [discriminate|].
    destruct (parse_header _) as [r invalid].
    destruct invalid; [discriminate|].
    destruct (length_code_wrong _); [discriminate|].
    destruct (read _ (b_length r)) as [[ret2 data2] w3].
    destruct (negb (ret2 =? b_length r)); [discriminate|].
    destruct (hex_check_loop _ _ _ _ _) as [[|]|]; try discriminate.
    destruct (checksum_wrong _ _ _); discriminate.
  - pose proof (one_diagnostic_exit p fuel w address Cmd.PROTOCOL_VER_GET [0]
                  (repeat 0 (Z.to_nat Off.sizeof)) c E) as Hc.
    split; [exact Hc | reflexivity].
  - apply bms_command_returns_minus_one in E. subst v.
    change (negb (u32 (-1) =? 0)) with true. cbv iota.
    cbn [version_out bad_response]. split; reflexivity.
  - reflexivity.
Qed.

(** ** The request on the wire *)

Lemma header_reads_back (s : Seplos_2_0_binary) (rest : list byte) :
  let e := header_bytes s ++ rest in
  at_ e 0 = ch "~"
  /\ hextoi2 e 1 = hextoi2 (hex2 (b_version s)) 0
  /\ hextoi2 e 3 = hextoi2 (hex2 (b_address s)) 0
  /\ hextoi2 e 5 = hextoi2 (hex2 (b_device s)) 0
  /\ hextoi2 e 7 = hextoi2 (hex2 (b_function s)) 0
  /\ hextoi4 e 9 = hextoi4 (hex4 (b_length s)) 0.
Proof.
  unfold header_bytes, hex2, hex4. forget_hex.
  repeat split; reflexivity.
Qed.

(** X21 ([bms_command], lines 178-200; [hex2], [hex4], lines 87-101).
    The frame of every accepted request starts with ['~'] and a header
    that, read back with [hextoi], gives version [0x20], the low 8 bits
    of the address, device [0x46], the low 8 bits of the command and the
    length field; the info bytes follow unchanged from offset 13, and the
    last byte is the carriage return. *)
Theorem request_frame_reads_back (p : abi) (address command : Z)
    (info : list byte) :
  (length info < 4096)%nat ->
  let frame := wire_frame p address command info in
  let len := Z.of_nat (length info) in
  at_ frame 0 = ch "~"
  /\ hextoi2 frame Off.version = 0x20
  /\ hextoi2 frame Off.address = u8 address
  /\ hextoi2 frame Off.device = 0x46
  /\ hextoi2 frame Off.function = u8 command
  /\ hextoi4 frame Off.length = b_length (request_binary address command len)
  /\ slice frame Off.info len = info
  /\ at_ frame (17 + len) = CR.
Proof.
  intros Hlen. cbv zeta.
  destruct (wire_frame_layout p address command info Hlen) as (ck & Hck & ->).
  set (s := request_binary address command (Z.of_nat (length info))).
  destruct (header_reads_back s (info ++ ck ++ [ch "013"]))
    as (H0 & H1 & H2 & H3 & H4 & H5).
  cbv zeta in *.
  change Off.version with 1. change Off.address with 3.
  change Off.device with 5. change Off.function with 7.
  change Off.length with 9.
  rewrite H0, H1, H2, H3, H4, H5.
  rewrite !hextoi2_hex2, hextoi4_hex4.
  assert (Hh : length (header_bytes s) = 13%nat) by reflexivity.
  repeat split.
  - unfold s, request_binary. cbn [b_address]. unfold u8.
    apply Z.mod_mod. lia.
  - unfold s, request_binary. cbn [b_function]. unfold u8.
    apply Z.mod_mod. lia.
  - unfold s, request_binary. cbn [b_length]. unfold u16.
    apply Z.mod_mod. lia.
  - unfold slice. change (Z.to_nat Off.info) with 13%nat.
    rewrite skipn_app, Hh, Nat.sub_diag, skipn_all2 by lia.
    cbn [app skipn]. rewrite Nat2Z.id.
    rewrite firstn_app, Nat.sub_diag, firstn_O, app_nil_r.
    apply firstn_all.
  - unfold at_, CR.
    replace (Z.to_nat (17 + Z.of_nat (length info)))
      with (length (header_bytes s ++ info ++ ck))
      by (rewrite !length_app, Hh, Hck; lia).
    rewrite !app_assoc. rewrite <- (app_assoc (header_bytes s)).
    apply nth_middle.
Qed.

Lemma request_frame_reads_back_witness :
  (length [0] < 4096)%nat
  /\ hextoi2 (wire_frame x86_64 5 Cmd.PROTOCOL_VER_GET [0]) Off.address = u8 5.
Proof.
  split; [cbn; lia|].
  apply (request_frame_reads_back x86_64 5 Cmd.PROTOCOL_VER_GET [0]).
  cbn; lia.
Defined.

Lemma encode_body_exact (p : abi) (s : Seplos_2_0_binary) (info : list byte) :
  (length info < 4096)%nat ->
  encode_body p (encode_header s) info =
  header_bytes s ++ info
    ++ (store_u16 p
          (overall_checksum p (skipn 1 (header_bytes s ++ info))
             (Z.of_nat (length info) + 12))
        ++ [0; 0])
    ++ [ch "013"] ++ repeat 0 (4095 - length info).
Proof.
  intros Hlen. unfold encode_body. rewrite encode_header_layout.
  set (hdr := header_bytes s).
  assert (Hh : length hdr = 13%nat) by reflexivity.
  replace 4100%nat
    with (length info + (2 + (2 + (1 + (4095 - length info)))))%nat by lia.
  rewrite !repeat_app.
  rewrite (blit_app hdr (repeat 0 (length info)) _ info Off.info)
    by (rewrite ?repeat_length; auto).
  assert (Hsum : forall tail,
             overall_checksum p
               (skipn (Z.to_nat Off.version) (hdr ++ info ++ tail))
               (u32 (Z.of_nat (length info) + 12))
             = overall_checksum p (skipn 1 (hdr ++ info))
                 (Z.of_nat (length info) + 12)).
  { intros tail. unfold overall_checksum. do 2 f_equal. f_equal.
    unfold u32. rewrite Z.mod_small by lia.
    change (Z.to_nat Off.version) with 1%nat.
    rewrite (app_assoc hdr info tail), skipn_app.
    replace (1 - length (hdr ++ info))%nat with 0%nat
      by (rewrite length_app, Hh; lia).
    rewrite skipn_O, firstn_app.
    replace (Z.to_nat (Z.of_nat (length info) + 12)
             - length (skipn 1 (hdr ++ info)))%nat with 0%nat
      by (rewrite length_skipn, length_app, Hh; lia).
    rewrite firstn_O, app_nil_r. reflexivity. }
  rewrite Hsum.
  set (ck := store_u16 p _).
  assert (Hck : length ck = 2%nat).
  { unfold ck, store_u16. destruct (big_endian p); reflexivity. }
  rewrite (app_assoc hdr info).
  rewrite (blit_app (hdr ++ info) (repeat 0 2) _ ck)
    by (rewrite ?length_app, ?repeat_length, ?Hh; unfold Off.info; lia).
  rewrite (app_assoc (hdr ++ info) ck).
  rewrite (app_assoc ((hdr ++ info) ++ ck) (repeat 0 2)).
  rewrite (blit_app (((hdr ++ info) ++ ck) ++ repeat 0 2) (repeat 0 1) _
                    [ch "013"])
    by (rewrite ?length_app, ?repeat_length, ?Hh, ?Hck; cbn [length];
        unfold Off.info; lia).
  rewrite <- !app_assoc. reflexivity.
Qed.

(** X22 ([bms_command], lines 193-200; [overall_checksum], lines 138-148).
    In the frame of every accepted request the four bytes after the info
    bytes are the low 16 bits of the checksum of the [12 + len] bytes
    that follow ['~'], stored as a [uint16_t] (two bytes, in the byte
    order of the machine), and then two zero bytes. *)
Theorem checksum_field_is_a_raw_uint16 (p : abi) (address command : Z)
    (info : list byte) :
  (length info < 4096)%nat ->
  let frame := wire_frame p address command info in
  let len := Z.of_nat (length info) in
  slice frame (Off.info + len) 4
  = store_u16 p (overall_checksum p (slice frame Off.version (12 + len))
                                  (12 + len))
      ++ [0; 0].
Proof.
  intros Hlen. cbv zeta. unfold wire_frame.
  rewrite (encode_body_exact p _ info Hlen).
  set (hdr := header_bytes _).
  assert (Hh : length hdr = 13%nat) by reflexivity.
  set (ck := store_u16 p _).
  assert (Hck : length ck = 2%nat).
  { unfold ck, store_u16. destruct (big_endian p); reflexivity. }
  rewrite frame_count by exact Hlen.
  assert (Hf : firstn (Z.to_nat (Z.of_nat (length info) + 18))
                 (hdr ++ info ++ (ck ++ [0; 0]) ++ [ch "013"]
                    ++ repeat 0 (4095 - length info))
               = (hdr ++ info) ++ (ck ++ [0; 0]) ++ [ch "013"]).
  { rewrite !app_assoc.
    replace (Z.to_nat (Z.of_nat (length info) + 18))
      with (length ((((hdr ++ info) ++ ck) ++ [0%Z; 0%Z]) ++ [ch "013"])
            + 0)%nat
      by (rewrite !length_app, Hh, Hck; cbn [length]; lia).
    rewrite firstn_app_2, firstn_O, app_nil_r. reflexivity. }
  rewrite Hf.
  assert (Hbody : slice ((hdr ++ info) ++ (ck ++ [0; 0]) ++ [ch "013"])
                    Off.version (12 + Z.of_nat (length info))
                  = skipn 1 (hdr ++ info)).
  { unfold slice. change (Z.to_nat Off.version) with 1%nat.
    rewrite skipn_app.
    replace (1 - length (hdr ++ info))%nat with 0%nat
      by (rewrite length_app, Hh; lia).
    rewrite skipn_O, firstn_app.
    replace (Z.to_nat (12 + Z.of_nat (length info))
             - length (skipn 1 (hdr ++ info)))%nat with 0%nat
      by (rewrite length_skipn, length_app, Hh; lia).
    rewrite firstn_O, app_nil_r. apply firstn_all2.
    rewrite length_skipn, length_app, Hh. lia. }
  rewrite Hbody.
  replace (12 + Z.of_nat (length info)) with (Z.of_nat (length info) + 12)
    by lia.
  fold ck.
  unfold slice.
  replace (Z.to_nat (Off.info + Z.of_nat (length info)))
    with (length (hdr ++ info)) by (rewrite length_app, Hh; unfold Off.info; lia).
  rewrite skipn_app, skipn_all, Nat.sub_diag, skipn_O. cbn [app].
  replace (Z.to_nat 4) with (length (ck ++ [0%Z; 0%Z]) + 0)%nat
    by (rewrite length_app, Hck; reflexivity).
  rewrite firstn_app_2, firstn_O, app_nil_r. reflexivity.
Qed.

Lemma checksum_field_is_a_raw_uint16_witness :
  let frame := wire_frame x86_64 0 Cmd.PROTOCOL_VER_GET [0] in
  (length [0] < 4096)%nat
  /\ slice frame (Off.info + 1) 4
     = store_u16 x86_64
         (overall_checksum x86_64 (slice frame Off.version (12 + 1)) (12 + 1))
       ++ [0; 0].
Proof.
  intros frame. split; [cbn; lia|].
  apply (checksum_field_is_a_raw_uint16 x86_64 0 Cmd.PROTOCOL_VER_GET [0]).
  cbn; lia.
Defined.
